(** * django_partial_date: [partial_date/fields.py]

    A shallow embedding of the [PartialDate] value type (a calendar date
    together with the precision it is known to), of its parser, formatter
    and comparison operators, and of the write path of the model field
    [PartialDateField].

    Python text is a list of characters, integers are [Z], exceptions are
    values of an error monad.  The two standard-library facilities the file
    relies on, [re] and [datetime], are modelled for the part the file
    uses; both are restricted to ASCII text. *)

From Stdlib Require Import ZArith List Ascii String Bool Lia.
Import ListNotations.
Open Scope Z_scope.

(** ** Text *)

Definition text := list ascii.

(** A literal of the source. *)
Definition str (s : string) : text := list_ascii_of_string s.

Definition code (c : ascii) : Z := Z.of_N (N_of_ascii c).

Definition text_eqb (a b : text) : bool :=
  if list_eq_dec ascii_dec a b then true else false.

(** [\d] on ASCII text. *)
Definition is_digit (c : ascii) : bool :=
  (48 <=? code c) && (code c <=? 57).

(** [\s] on ASCII text: space, [\t], [\n], [\v], [\f], [\r]. *)
Definition is_space (c : ascii) : bool :=
  (code c =? 32) || ((9 <=? code c) && (code c <=? 13)).

Definition lower (c : ascii) : ascii :=
  if (65 <=? code c) && (code c <=? 90)
  then ascii_of_N (N_of_ascii c + 32) else c.

Definition digit_val (c : ascii) : Z := code c - 48.

Definition digit_char (n : Z) : ascii := ascii_of_N (Z.to_N (n + 48)).

(** [int(v)] on a run of decimal digits. *)
Definition int (v : text) : Z :=
  fold_left (fun acc c => acc * 10 + digit_val c) v 0.

(** ** The [re] module, for the constructs of the two patterns *)

Module Re.

Inductive cclass := Digit | Space.

Definition in_class (k : cclass) (c : ascii) : bool :=
  match k with Digit => is_digit c | Space => is_space c end.

(** [Rep k lo hi] is the greedy repetition of a character class:
    [\d+] is [Rep Digit 1 None], [\d{1,2}] is [Rep Digit 1 (Some 2)],
    [\s*] is [Rep Space 0 None].  [Group (Some n) r] is [(?P<n>r)],
    [Group None r] a plain parenthesis; [(?:r)] is [r] itself. *)
Inductive regex :=
| Lit (c : ascii)
| Rep (k : cclass) (lo : nat) (hi : option nat)
| Cat (r1 r2 : regex)
| Alt (r1 r2 : regex)
| Opt (r : regex)
| Group (name : option text) (r : regex)
| Bol
| Eol.

(** The named groups that took part in a match. *)
Definition groups := list (text * text).

Fixpoint lookup (n : text) (g : groups) : option text :=
  match g with
  | [] => None
  | (k, v) :: g' => if text_eqb k n then Some v else lookup n g'
  end.

Definition chr_eqb (ignorecase : bool) (p c : ascii) : bool :=
  if ignorecase then Ascii.eqb (lower p) (lower c) else Ascii.eqb p c.

(** Length of the longest prefix of [s] in the class, at most [hi]. *)
Fixpoint span (k : cclass) (hi : option nat) (s : text) : nat :=
  match hi, s with
  | Some O, _ => O
  | _, [] => O
  | _, c :: s' =>
      if in_class k c then S (span k (option_map Nat.pred hi) s') else O
  end.

(** Greedy choice with backtracking: the longest count first. *)
Fixpoint backtrack {A} (lo n : nat) (f : nat -> option A) : option A :=
  if (n <? lo)%nat then None else
    match f n with
    | Some x => Some x
    | None => match n with O => None | S n' => backtrack lo n' f end
    end.

(** The backtracking matcher, in continuation-passing style: [pos] is
    the offset of [s] in the subject, [g] the groups set so far, [k]
    the rest of the pattern. *)
Fixpoint run (ignorecase : bool) (r : regex) (pos : nat) (s : text)
    (g : groups) (k : nat -> text -> groups -> option groups)
  : option groups :=
  match r with
  | Lit p =>
      match s with
      | c :: s' => if chr_eqb ignorecase p c then k (S pos) s' g else None
      | [] => None
      end
  | Rep cl lo hi =>
      backtrack lo (span cl hi s)
        (fun i => k (pos + i)%nat (skipn i s) g)
  | Cat r1 r2 =>
      run ignorecase r1 pos s g
        (fun pos' s' g' => run ignorecase r2 pos' s' g' k)
  | Alt r1 r2 =>
      match run ignorecase r1 pos s g k with
      | Some x => Some x
      | None => run ignorecase r2 pos s g k
      end
  | Opt r1 =>
      match run ignorecase r1 pos s g k with
      | Some x => Some x
      | None => k pos s g
      end
  | Group name r1 =>
      run ignorecase r1 pos s g
        (fun pos' s' g' =>
           match name with
           | Some n => k pos' s' ((n, firstn (pos' - pos) s) :: g')
           | None => k pos' s' g'
           end)
  | Bol => if (pos =? 0)%nat then k pos s g else None
  | Eol =>
      match s with
      | [] => k pos s g
      | [c] => if Ascii.eqb c "010" then k pos s g else None
      | _ => None
      end
  end.

(** [pattern.match(value)]: a match anchored at the start; [None] is
    Python's [None]. *)
Definition match_ (ignorecase : bool) (r : regex) (value : text)
  : option groups :=
  run ignorecase r 0 value [] (fun _ _ g => Some g).

End Re.

Import Re.

(** [^(?P<year>\d+)(?:-(?P<month>\d{1,2}))?(?:-(?P<day>\d{1,2}))?$] *)
Definition partial_date_re : regex :=
  Cat Bol
    (Cat (Group (Some (str "year")) (Rep Digit 1 None))
       (Cat (Opt (Cat (Lit "-") (Group (Some (str "month")) (Rep Digit 1 (Some 2%nat)))))
          (Cat (Opt (Cat (Lit "-") (Group (Some (str "day")) (Rep Digit 1 (Some 2%nat)))))
             Eol))).

(** [^(circa|c\.?)\s*(?P<year>\d+)$], compiled with [re.IGNORECASE]. *)
Definition partial_date_re_circa : regex :=
  Cat Bol
    (Cat (Group None (Alt (Cat (Lit "c") (Cat (Lit "i") (Cat (Lit "r") (Cat (Lit "c") (Lit "a")))))
                        (Cat (Lit "c") (Opt (Lit ".")))))
       (Cat (Rep Space 0 None)
          (Cat (Group (Some (str "year")) (Rep Digit 1 None))
             Eol))).


(** ** The [datetime] module

    [datetime.date] and [datetime.datetime] as records of their fields.
    A constructor that raises [ValueError] returns [None] here.  The
    range checks are those of the documentation and of the pure-Python
    implementation; the C implementation raises [OverflowError] instead
    for an argument that does not fit a C int, which is not modelled. *)

Module Datetime.

Record date := mkdate { year : Z; month : Z; day : Z }.

Record datetime := mkdatetime {
  dt_year : Z; dt_month : Z; dt_day : Z;
  hour : Z; minute : Z; second : Z; microsecond : Z }.

Definition MINYEAR := 1.
Definition MAXYEAR := 9999.

Definition is_leap (y : Z) : bool :=
  (y mod 4 =? 0) && (negb (y mod 100 =? 0) || (y mod 400 =? 0)).

Definition days_in_month (y m : Z) : Z :=
  if m =? 2 then (if is_leap y then 29 else 28)
  else if (m =? 4) || (m =? 6) || (m =? 9) || (m =? 11) then 30
  else 31.

Definition check_date_fields (y m d : Z) : bool :=
  (MINYEAR <=? y) && (y <=? MAXYEAR) &&
  (1 <=? m) && (m <=? 12) &&
  (1 <=? d) && (d <=? days_in_month y m).

Definition check_time_fields (h mi s us : Z) : bool :=
  (0 <=? h) && (h <=? 23) && (0 <=? mi) && (mi <=? 59) &&
  (0 <=? s) && (s <=? 59) && (0 <=? us) && (us <=? 999999).

(** [datetime.date(year, month, day)] *)
Definition date_new (y m d : Z) : option date :=
  if check_date_fields y m d then Some (mkdate y m d) else None.

(** [datetime.datetime(year, month, day, hour, minute, second, microsecond)] *)
Definition datetime_new (y m d h mi s us : Z) : option datetime :=
  if check_date_fields y m d && check_time_fields h mi s us
  then Some (mkdatetime y m d h mi s us) else None.

(** The objects the constructors can return. *)
Definition date_ok (d : date) : bool :=
  check_date_fields (year d) (month d) (day d).

(** [datetime.date()] *)
Definition date_of (t : datetime) : date :=
  mkdate (dt_year t) (dt_month t) (dt_day t).

(** [date.replace(year=None, month=None, day=None)]: a new date, the
    receiver is left as it is. *)
Definition replace (self : date) (y m d : option Z) : option date :=
  date_new (match y with Some v => v | None => year self end)
           (match m with Some v => v | None => month self end)
           (match d with Some v => v | None => day self end).

(** Dates compare as the triples (year, month, day). *)
Definition date_eqb (a b : date) : bool :=
  (year a =? year b) && (month a =? month b) && (day a =? day b).

Definition date_ltb (a b : date) : bool :=
  (year a <? year b) ||
  ((year a =? year b) &&
   ((month a <? month b) || ((month a =? month b) && (day a <? day b)))).

Definition date_geb (a b : date) : bool := negb (date_ltb a b).

Definition digits2 (n : Z) : text :=
  [digit_char (n / 10); digit_char (n mod 10)].

Definition digits4 (n : Z) : text :=
  [digit_char (n / 1000); digit_char (n / 100 mod 10);
   digit_char (n / 10 mod 10); digit_char (n mod 10)].

Fixpoint strip_zeros (t : text) : text :=
  match t with
  | c :: (_ :: _) as t' => if Ascii.eqb c "0" then strip_zeros t' else t
  | _ => t
  end.

(** [%Y]: the documented output has four digits ("0001" ... "9999");
    the C library of some platforms does not pad years below 1000.
    [zero_pad] chooses between the two. *)
Definition year_text (zero_pad : bool) (y : Z) : text :=
  if zero_pad then digits4 y else strip_zeros (digits4 y).

(** [date.strftime(format)] for the directives [%Y], [%m], [%d] and
    [%%]; [None] is a format with another directive, which this model
    does not cover. *)
Fixpoint strftime (zero_pad : bool) (self : date) (fmt : text)
  : option text :=
  match fmt with
  | [] => Some []
  | "%"%char :: c :: fmt' =>
      match strftime zero_pad self fmt' with
      | None => None
      | Some rest =>
          if Ascii.eqb c "Y" then Some (year_text zero_pad (year self) ++ rest)
          else if Ascii.eqb c "m" then Some (digits2 (month self) ++ rest)
          else if Ascii.eqb c "d" then Some (digits2 (day self) ++ rest)
          else if Ascii.eqb c "%" then Some ("%"%char :: rest)
          else None
      end
  | c :: fmt' =>
      match strftime zero_pad self fmt' with
      | None => None
      | Some rest => Some (c :: rest)
      end
  end.

End Datetime.

Import Datetime.

(** ** Objects, exceptions *)

(** An instance of [PartialDate]: its two attributes, [None] until
    [__init__] has assigned them. *)
Record PartialDate := mkPartialDate {
  _date : option date;
  _precision : option Z }.

(** The Python values that reach the constructor and the field. *)
Inductive value :=
| VNone
| VInt (z : Z)
| VStr (s : text)
| VDate (d : date)
| VPartialDate (p : PartialDate).

Inductive exn :=
| ValueError
| AttributeError
| TypeError
| ValidationError (message : text) (params : list (text * value)).

Inductive result (A : Type) :=
| Return (a : A)
| Raise (e : exn).

Arguments Return {A} a.
Arguments Raise {A} e.

Definition bind {A B} (m : result A) (f : A -> result B) : result B :=
  match m with Return a => f a | Raise e => Raise e end.

Notation "x <- m ;; k" := (bind m (fun x => k))
  (at level 61, m at next level, right associativity).

(** A library call that raises [ValueError]. *)
Definition or_value_error {A} (o : option A) : result A :=
  match o with Some a => Return a | None => Raise ValueError end.

(** [try: body except (AttributeError, ValueError): handler] *)
Definition try_except {A} (body : result A) (handler : result A) : result A :=
  match body with
  | Raise AttributeError | Raise ValueError => handler
  | r => r
  end.

(** The result of a rich comparison. *)
Inductive cmp :=
| PyBool (b : bool)
| NotImplemented.

(** ** class PartialDate *)

Definition YEAR : Z := 0.
Definition MONTH : Z := 1.
Definition DAY : Z := 2.
Definition CIRCA : Z := 3.

(** The object before [__init__]: the class attributes [_date = None]
    and [_precision = None]. *)
Definition new : PartialDate := mkPartialDate None None.

(** The properties [date] and [precision]. *)
Definition date_ (self : PartialDate) : option date := _date self.
Definition precision (self : PartialDate) : option Z := _precision self.

(** [date.setter] *)
Definition set_date (self : PartialDate) (value : value) : result PartialDate :=
  match value with
  | VDate d => Return (mkPartialDate (Some d) (_precision self))
  | _ =>
      Raise (ValidationError (str "%(value)s is not datetime.date instance")
               [(str "value", value)])
  end.

(** [value in (self.YEAR, self.MONTH, self.DAY, self.CIRCA)] *)
Definition in_tags (value : value) : option Z :=
  match value with
  | VInt z =>
      if (z =? YEAR) || (z =? MONTH) || (z =? DAY) || (z =? CIRCA)
      then Some z else None
  | _ => None
  end.

(** [self._date.replace(...)] as a statement: the call is made, what it
    returns is dropped. *)
Definition call_replace (d : option date) (m dd : option Z) : result unit :=
  match d with
  | None => Raise AttributeError
  | Some d => _ <- or_value_error (replace d None m dd) ;; Return tt
  end.

(** [precision.setter] *)
Definition set_precision (self : PartialDate) (value : value)
  : result PartialDate :=
  let p := match in_tags value with Some z => z | None => DAY end in
  let self := mkPartialDate (_date self) (Some p) in
  if p =? MONTH then
    _ <- call_replace (_date self) None (Some 1) ;;
    Return self
  else if (p =? YEAR) || (p =? CIRCA) then
    _ <- call_replace (_date self) (Some 1) (Some 1) ;;
    Return self
  else Return self.

(** [self.precision == tag]; [None] equals no tag. *)
Definition precision_is (self : PartialDate) (tag : Z) : bool :=
  match precision self with Some p => p =? tag | None => false end.

Definition is_precision_year (self : PartialDate) : bool :=
  precision_is self YEAR.

Definition is_precision_month (self : PartialDate) : bool :=
  precision_is self MONTH.

Definition is_precision_day (self : PartialDate) : bool :=
  precision_is self DAY.

Definition is_precision_circa (self : PartialDate) : bool :=
  precision_is self CIRCA.

(** The truth value of a group of [match_dict]. *)
Definition truthy (v : option text) : bool :=
  match v with Some (_ :: _) => true | _ => false end.

(** [int(v) if v else 1] *)
Definition int_or_1 (v : option text) : Z :=
  match v with Some (c :: t) => int (c :: t) | _ => 1 end.

Definition parse_error (value : text) : exn :=
  ValidationError
    (str "'%(value)s' is not a valid date string (YYYY, YYYY-MM, YYYY-MM-DD, c. YYYY, circa YYYY)")
    [(str "value", VStr value)].

(** [PartialDate.parse_date] *)
Definition parse_date (value : text) : result (date * Z) :=
  match Re.match_ true partial_date_re_circa value with
  | Some match_dict =>
      y <- match lookup (str "year") match_dict with
           | Some v => Return (int v)
           | None => Raise TypeError
           end ;;
      date <- or_value_error (date_new y 1 1) ;;
      Return (date, CIRCA)
  | None =>
      try_except
        (match Re.match_ false partial_date_re value with
         | None => Raise AttributeError
         | Some match_dict =>
             let kw k := int_or_1 (lookup (str k) match_dict) in
             let precision :=
               if truthy (lookup (str "day") match_dict) then DAY
               else if truthy (lookup (str "month") match_dict) then MONTH
               else YEAR in
             date <- or_value_error (date_new (kw "year"%string) (kw "month"%string) (kw "day"%string)) ;;
             Return (date, precision)
         end)
        (Raise (parse_error value))
  end.

(** [PartialDate.__init__] *)
Definition __init__ (date : value) (precision : value) : result PartialDate :=
  args <- match date with
          | VStr s =>
              r <- parse_date s ;;
              Return (VDate (fst r), VInt (snd r))
          | _ => Return (date, precision)
          end ;;
  self <- set_date new (fst args) ;;
  set_precision self (snd args).

Section Formatting.

(** Whether [%Y] pads the year to four digits on this platform. *)
Variable zero_pad : bool.

(** [PartialDate.format] *)
Definition format (self : PartialDate)
    (precision_year precision_month precision_day precision_circa : text)
  : option text :=
  let format :=
    if is_precision_year self then precision_year
    else if is_precision_month self then precision_month
    else if is_precision_circa self then precision_circa
    else precision_day in
  match _date self with
  | None => Some []
  | Some d => strftime zero_pad d format
  end.

(** [format()] with the default templates. *)
Definition format_default (self : PartialDate) : option text :=
  format self (str "%Y") (str "%Y-%m") (str "%Y-%m-%d") (str "c. %Y").

(** [PartialDate.__repr__] *)
Definition __repr__ (self : PartialDate) : option text :=
  match _date self with
  | None => Some []
  | Some _ => format_default self
  end.

End Formatting.

(** [==] and [>=] on the attributes; [None >= None] is a [TypeError]. *)
Definition opt_eqb {A} (eqb : A -> A -> bool) (a b : option A) : bool :=
  match a, b with
  | Some x, Some y => eqb x y
  | None, None => true
  | _, _ => false
  end.

Definition opt_geb {A} (geb : A -> A -> bool) (a b : option A) : result bool :=
  match a, b with
  | Some x, Some y => Return (geb x y)
  | _, _ => Raise TypeError
  end.

(** [PartialDate.__eq__] *)
Definition __eq__ (self : PartialDate) (other : value) : cmp :=
  match other with
  | VPartialDate other =>
      PyBool (opt_eqb date_eqb (date_ self) (date_ other)
              && opt_eqb Z.eqb (precision self) (precision other))
  | _ => NotImplemented
  end.

(** [PartialDate.__ge__] *)
Definition __ge__ (self : PartialDate) (other : value) : result cmp :=
  match other with
  | VPartialDate other =>
      d <- opt_geb date_geb (date_ self) (date_ other) ;;
      if d then
        p <- opt_geb Z.geb (precision self) (precision other) ;;
        Return (PyBool p)
      else Return (PyBool false)
  | _ => Return NotImplemented
  end.

(** [PartialDate.__gt__] *)
Definition __gt__ (self : PartialDate) (other : value) : result cmp :=
  match other with
  | VPartialDate _ =>
      ge <- __ge__ self other ;;
      match ge with
      | PyBool false => Return (PyBool false)
      | _ =>
          match __eq__ self other with
          | PyBool e => Return (PyBool (negb e))
          | NotImplemented => Return (PyBool false)
          end
      end
  | _ => Return NotImplemented
  end.

(** ** class PartialDateField *)

Record PartialDateField := { name : text }.

Definition get_internal_type (self : PartialDateField) : text :=
  str "DateTimeField".

(** [PartialDateField.from_db_value] *)
Definition from_db_value (self : PartialDateField) (value : option datetime)
  : result (option PartialDate) :=
  match value with
  | None => Return None
  | Some v =>
      p <- __init__ (VDate (date_of v)) (VInt (second v)) ;;
      Return (Some p)
  end.

(** [PartialDateField.to_python] *)
Definition to_python (self : PartialDateField) (value : value)
  : result (option PartialDate) :=
  match value with
  | VNone => Return None
  | VPartialDate p => Return (Some p)
  | VStr s => p <- __init__ (VStr s) (VInt DAY) ;; Return (Some p)
  | _ =>
      Raise (ValidationError
               (str "'%(name)s' value must be a PartialDate instance, a valid partial date string (YYYY, YYYY-MM, YYYY-MM-DD) or None, not '%(value)s'")
               [(str "name", VStr (name self)); (str "value", value)])
  end.

(** [value in (None, "")] *)
Definition is_none_or_empty (value : value) : bool :=
  match value with
  | VNone => true
  | VStr [] => true
  | _ => false
  end.

(** [PartialDateField.get_prep_value] *)
Definition get_prep_value (self : PartialDateField) (value : value)
  : result (option datetime) :=
  if is_none_or_empty value then Return None
  else
    partial_date <- to_python self value ;;
    match partial_date with
    | None => Raise AttributeError
    | Some partial_date =>
        match date_ partial_date, precision partial_date with
        | Some date, Some p =>
            r <- or_value_error
                   (datetime_new (year date) (month date) (day date) 0 0 p 0) ;;
            Return (Some r)
        | None, _ => Raise AttributeError
        | _, None => Raise TypeError
        end
    end.


(** ** The class invariant *)

(** What [__init__] establishes and the setters keep: a date the
    [datetime.date] constructor accepts, and one of the four tags. *)
Definition invariant (p : PartialDate) : bool :=
  match _date p, _precision p with
  | Some d, Some z => date_ok d && (0 <=? z) && (z <=? 3)
  | _, _ => false
  end.

(** The values whose parts are objects Python can hold. *)
Definition value_ok (v : value) : bool :=
  match v with
  | VDate d => date_ok d
  | VPartialDate p => invariant p
  | _ => true
  end.

(** ** The claims in the words of the specification *)

(** "compares date first, then precision as an integer rank". *)
Definition lexicographic_ge (da : date) (pa : Z) (db : date) (pb : Z) : bool :=
  date_ltb db da || (date_eqb da db && (pb <=? pa)).




(** ** The canonical form of an accepted text *)





(** ** What the patterns capture *)

(** A run of one or more digits, as [\d+] and [\d{1,2}] capture it. *)
Definition digit_run (t : text) : Prop :=
  t <> [] /\ forallb is_digit t = true.

Definition short_run (o : option text) : Prop :=
  match o with
  | Some t => digit_run t /\ (List.length t <= 2)%nat
  | None => True
  end.

Definition entry (n : string) (v : option text) : groups :=
  match v with Some t => [(str n, t)] | None => [] end.

(** A segment of the text as a number; a missing segment counts as 1. *)
Definition component (v : option text) : Z :=
  match v with Some t => int t | None => 1 end.

(** The precision the segments stand for. *)
Definition precision_of (m d : option text) : Z :=
  match d, m with
  | Some _, _ => DAY
  | None, Some _ => MONTH
  | None, None => YEAR
  end.

(** Where a greedy repetition of the class stops. *)
Definition stops (k : cclass) (rest : text) : bool :=
  match rest with [] => true | c :: _ => negb (in_class k c) end.

(** A month or day segment of the text. *)
Definition segment (o : option text) : text :=
  match o with Some t => "-"%char :: t | None => [] end.

(** A date that shows no more than its precision: the day is 1 under
    MONTH, the month and the day are 1 under YEAR and CIRCA. *)
Definition normalised (d : date) (z : Z) : Prop :=
  (z = MONTH -> day d = 1)
  /\ (z = YEAR \/ z = CIRCA -> month d = 1 /\ day d = 1).

(** ** The accepted texts *)





(** * Proofs *)

(** ** Booleans and dates *)

Ltac prop_of_bool :=
  repeat match goal with
    | H : _ && _ = true |- _ => apply andb_true_iff in H; destruct H
    | H : _ || _ = false |- _ => apply orb_false_iff in H; destruct H
    | H : (_ <=? _) = true |- _ => apply Z.leb_le in H
    | H : (_ <=? _) = false |- _ => apply Z.leb_gt in H
    | H : (_ <? _) = true |- _ => apply Z.ltb_lt in H
    | H : (_ <? _) = false |- _ => apply Z.ltb_ge in H
    | H : (_ =? _) = true |- _ => apply Z.eqb_eq in H
    | H : (_ =? _) = false |- _ => apply Z.eqb_neq in H
    end.

Lemma days_in_month_lower (y m : Z) : 28 <= days_in_month y m.
Proof.
  unfold days_in_month.
  destruct (m =? 2); [destruct (is_leap y); lia|].
  destruct ((m =? 4) || (m =? 6) || (m =? 9) || (m =? 11)); lia.
Qed.

Lemma days_in_month_upper (y m : Z) : days_in_month y m <= 31.
Proof.
  unfold days_in_month.
  destruct (m =? 2); [destruct (is_leap y); lia|].
  destruct ((m =? 4) || (m =? 6) || (m =? 9) || (m =? 11)); lia.
Qed.

Lemma check_date_fields_bounds (y m d : Z) :
  check_date_fields y m d = true ->
  1 <= y <= 9999 /\ 1 <= m <= 12 /\ 1 <= d <= 31.
Proof.
  unfold check_date_fields, MINYEAR, MAXYEAR. intros H. prop_of_bool.
  pose proof (days_in_month_upper y m). lia.
Qed.

Lemma check_date_fields_first (y m d : Z) :
  check_date_fields y m d = true -> check_date_fields y m 1 = true.
Proof.
  unfold check_date_fields. intros H. prop_of_bool.
  pose proof (days_in_month_lower y m).
  repeat (apply andb_true_iff; split); try apply Z.leb_le; lia.
Qed.

Lemma check_date_fields_january (y m d : Z) :
  check_date_fields y m d = true -> check_date_fields y 1 1 = true.
Proof.
  unfold check_date_fields. intros H. prop_of_bool.
  pose proof (days_in_month_lower y 1).
  repeat (apply andb_true_iff; split); try apply Z.leb_le; lia.
Qed.

Lemma date_new_ok (y m d : Z) (r : date) :
  date_new y m d = Some r -> r = mkdate y m d /\ date_ok r = true.
Proof.
  unfold date_new, date_ok.
  destruct (check_date_fields y m d) eqn:E; [|discriminate].
  intros H. injection H as <-. auto.
Qed.

(** The two calls of [replace] in the setter return on a valid date. *)
Lemma call_replace_day (d : date) :
  date_ok d = true -> call_replace (Some d) None (Some 1) = Return tt.
Proof.
  unfold date_ok, call_replace, replace, date_new. intros H.
  rewrite (check_date_fields_first _ _ _ H). reflexivity.
Qed.

Lemma call_replace_month_day (d : date) :
  date_ok d = true -> call_replace (Some d) (Some 1) (Some 1) = Return tt.
Proof.
  unfold date_ok, call_replace, replace, date_new. intros H.
  rewrite (check_date_fields_january _ _ _ H). reflexivity.
Qed.

Lemma date_eqb_eq (a b : date) : date_eqb a b = true <-> a = b.
Proof.
  unfold date_eqb. destruct a, b; simpl. split.
  - intros H. prop_of_bool. congruence.
  - intros H. injection H as -> -> ->. now rewrite !Z.eqb_refl.
Qed.

Lemma date_geb_refl (a : date) : date_geb a a = true.
Proof.
  unfold date_geb, date_ltb.
  rewrite !Z.ltb_irrefl, !Z.eqb_refl. reflexivity.
Qed.

(** ** The precision setter *)

Lemma in_tags_range (v : value) (z : Z) :
  in_tags v = Some z -> v = VInt z /\ 0 <= z <= 3.
Proof.
  destruct v; simpl; try discriminate.
  unfold YEAR, MONTH, DAY, CIRCA.
  destruct ((z0 =? 0) || (z0 =? 1) || (z0 =? 2) || (z0 =? 3)) eqn:E;
    [|discriminate].
  intros H. injection H as <-. split; [reflexivity|].
  repeat (apply orb_true_iff in E; destruct E as [E|E]);
    apply Z.eqb_eq in E; lia.
Qed.

(** The setter returns on a valid date, stores a tag, and keeps the date. *)
Lemma set_precision_valid (self : PartialDate) (d : date) (v : value) :
  _date self = Some d -> date_ok d = true ->
  exists z, set_precision self v = Return (mkPartialDate (Some d) (Some z))
            /\ 0 <= z <= 3
            /\ z = match in_tags v with Some t => t | None => DAY end.
Proof.
  intros Hd Hok. unfold set_precision.
  set (p := match in_tags v with Some t => t | None => DAY end).
  assert (Hp : 0 <= p <= 3).
  { subst p. destruct (in_tags v) eqn:E.
    - apply in_tags_range in E. tauto.
    - unfold DAY. lia. }
  exists p. simpl. rewrite Hd.
  destruct (p =? MONTH).
  - rewrite (call_replace_day _ Hok). auto.
  - destruct ((p =? YEAR) || (p =? CIRCA)).
    + rewrite (call_replace_month_day _ Hok). auto.
    + auto.
Qed.

(** ** The matcher *)

Lemma backtrack_some {A} (lo n : nat) (f : nat -> option A) (x : A) :
  backtrack lo n f = Some x ->
  exists i, (lo <= i <= n)%nat /\ f i = Some x.
Proof.
  induction n as [|n IH]; simpl.
  - destruct (0 <? lo)%nat eqn:E; [discriminate|].
    apply Nat.ltb_ge in E.
    destruct (f 0%nat) eqn:F; [|discriminate].
    intros H. injection H as ->. exists 0%nat. split; [lia|assumption].
  - destruct (S n <? lo)%nat eqn:E; [discriminate|].
    apply Nat.ltb_ge in E.
    destruct (f (S n)) eqn:F.
    + intros H. injection H as ->. exists (S n). split; [lia|assumption].
    + intros H. destruct (IH H) as (i & Hi & Hf).
      exists i. split; [lia|assumption].
Qed.

Lemma backtrack_none {A} (lo n : nat) (f : nat -> option A) :
  backtrack lo n f = None ->
  forall i, (lo <= i <= n)%nat -> f i = None.
Proof.
  induction n as [|n IH]; simpl; intros H i Hi.
  - assert (i = 0)%nat by lia. subst.
    destruct (0 <? lo)%nat eqn:E; [apply Nat.ltb_lt in E; lia|].
    destruct (f 0%nat); [discriminate|reflexivity].
  - destruct (S n <? lo)%nat eqn:E; [apply Nat.ltb_lt in E; lia|].
    destruct (f (S n)) eqn:F; [discriminate|].
    destruct (Nat.eq_dec i (S n)) as [->|Hn]; [assumption|].
    apply IH; [assumption|lia].
Qed.

Lemma span_prefix (k : cclass) (s : text) (hi : option nat) (i : nat) :
  (i <= span k hi s)%nat ->
  List.length (firstn i s) = i /\ forallb (in_class k) (firstn i s) = true.
Proof.
  revert hi i. induction s as [|c s IH]; intros hi i H.
  - assert (i = 0%nat) by (destruct hi as [[|h]|]; simpl in H; lia).
    subst. auto.
  - destruct i as [|i]; [auto|].
    assert (Hc : in_class k c = true
                 /\ (i <= span k (option_map Nat.pred hi) s)%nat).
    { destruct hi as [[|h]|]; simpl in H |- *; try lia;
        destruct (in_class k c); try lia; split; auto; lia. }
    destruct Hc as [Hc Hi]. destruct (IH _ _ Hi) as [Hl Hf].
    simpl. rewrite Hc, Hl, Hf. auto.
Qed.

Lemma span_limit (k : cclass) (s : text) (h : nat) :
  (span k (Some h) s <= h)%nat.
Proof.
  revert h. induction s as [|c s IH]; intros [|h]; simpl; try lia.
  destruct (in_class k c); [|lia]. specialize (IH h). lia.
Qed.

Lemma captured_run (hi : option nat) (s : text) (pos i : nat) :
  (1 <= i <= span Digit hi s)%nat ->
  digit_run (firstn (pos + i - pos) s)
  /\ List.length (firstn (pos + i - pos) s) = i.
Proof.
  intros [H1 H2]. replace (pos + i - pos)%nat with i by lia.
  destruct (span_prefix Digit s hi i H2) as [Hl Hf].
  repeat split; auto.
  intros E. rewrite E in Hl. simpl in Hl. lia.
Qed.

(** [$] was reached with the groups of the hypothesis. *)
Ltac at_eol H :=
  match type of H with
  | match ?t with _ => _ end = Some _ =>
      destruct t as [|? [|? ?]];
      [ | match type of H with
          | (if ?b then _ else _) = _ => destruct b; [|discriminate]
          end
        | discriminate ];
      injection H as <-; reflexivity
  end.

Ltac groups_done :=
  cbn [entry app short_run];
  repeat match goal with |- _ /\ _ => split end;
  try assumption; try exact I; try lia;
  try (intros; congruence).

(** What a match of the plain pattern puts in its groups. *)
Lemma partial_date_re_groups (s : text) (g : groups) :
  Re.match_ false partial_date_re s = Some g ->
  exists y m d,
    g = entry "day" d ++ entry "month" m ++ [(str "year", y)]
    /\ digit_run y /\ short_run m /\ short_run d
    /\ (m = None -> d = None).
Proof.
  unfold Re.match_, partial_date_re. cbn [run Nat.eqb].
  intros H. apply backtrack_some in H. destruct H as (i & Hi & H).
  destruct (captured_run None s 0 i Hi) as [Hy _].
  set (y := firstn (0 + i - 0) s) in *.
  match type of H with
  | match ?m with _ => _ end = _ => destruct m as [x|] eqn:M
  end.
  - (* a month segment *)
    injection H as ->.
    destruct (skipn i s) as [|c s1]; [discriminate|].
    destruct (chr_eqb false "-" c); [|discriminate].
    apply backtrack_some in M. destruct M as (j & Hj & M).
    destruct (captured_run (Some 2%nat) s1 (S (0 + i)) j Hj) as [Hm Hlm].
    pose proof (span_limit Digit s1 2).
    set (m := firstn (S (0 + i) + j - S (0 + i)) s1) in *.
    match type of M with
    | match ?m with _ => _ end = _ => destruct m as [x|] eqn:D
    end.
    + injection M as ->.
      destruct (skipn j s1) as [|c2 s2]; [discriminate|].
      destruct (chr_eqb false "-" c2); [|discriminate].
      apply backtrack_some in D. destruct D as (l & Hl & D).
      destruct (captured_run (Some 2%nat) s2 (S (S (0 + i) + j)) l Hl)
        as [Hd Hld].
      pose proof (span_limit Digit s2 2).
      set (d := firstn _ s2) in *.
      exists y, (Some m), (Some d).
      assert (g = [(str "day", d); (str "month", m); (str "year", y)]).
      { at_eol D. }
      groups_done.
    + exists y, (Some m), None.
      assert (g = [(str "month", m); (str "year", y)]).
      { at_eol M. }
      groups_done.
  - (* no month segment *)
    match type of H with
    | match ?m with _ => _ end = _ => destruct m as [x|] eqn:D
    end.
    + (* a day segment alone: the month group would have taken it *)
      exfalso. injection H as ->.
      destruct (skipn i s) as [|c s1]; [discriminate|].
      destruct (chr_eqb false "-" c); [|discriminate].
      apply backtrack_some in D. destruct D as (l & Hl & D).
      pose proof (backtrack_none _ _ _ M l Hl) as N. cbv beta in N.
      destruct (skipn l s1) as [|c' [|? ?]]; try discriminate.
      destruct (Ascii.eqb c' "010") eqn:E; [|discriminate].
      apply Ascii.eqb_eq in E. subst c'. discriminate N.
    + exists y, None, None.
      assert (g = [(str "year", y)]).
      { at_eol H. }
      groups_done.
Qed.

Lemma digit_not_c (c : ascii) :
  is_digit c = true -> chr_eqb true "c" c = false.
Proof.
  destruct c as [[] [] [] [] [] [] [] []]; intros H;
    vm_compute in H; try discriminate H; reflexivity.
Qed.

(** A text the plain pattern matches starts with a digit. *)
Lemma partial_date_re_head (s : text) (g : groups) :
  Re.match_ false partial_date_re s = Some g ->
  exists c s', s = c :: s' /\ is_digit c = true.
Proof.
  unfold Re.match_, partial_date_re. cbn [run Nat.eqb].
  intros H. apply backtrack_some in H. destruct H as (i & [Hi Hs] & _).
  destruct s as [|c s']; [simpl in Hs; lia|].
  exists c, s'. split; [reflexivity|].
  simpl in Hs. unfold in_class in Hs.
  destruct (is_digit c); [reflexivity|lia].
Qed.

(** ... and the circa pattern does not match it. *)
Lemma circa_no_digit_head (c : ascii) (s : text) :
  is_digit c = true ->
  Re.match_ true partial_date_re_circa (c :: s) = None.
Proof.
  intros H. unfold Re.match_, partial_date_re_circa. cbn [run Nat.eqb].
  rewrite (digit_not_c c H). reflexivity.
Qed.

Lemma patterns_disjoint (s : text) (g : groups) :
  Re.match_ false partial_date_re s = Some g ->
  Re.match_ true partial_date_re_circa s = None.
Proof.
  intros H. destruct (partial_date_re_head s g H) as (c & s' & -> & Hc).
  now apply circa_no_digit_head.
Qed.

(** Follows a successful run of the matcher through its choices. *)
Ltac follow_run :=
  repeat match goal with
    | H : Some _ = Some _ |- _ => injection H as <-
    | H : None = Some _ |- _ => discriminate H
    | H : backtrack _ _ _ = Some _ |- _ =>
        let i := fresh "i" in
        let B := fresh "B" in
        apply backtrack_some in H; destruct H as (i & B & H)
    | H : match ?t with _ => _ end = Some _ |- _ =>
        let E := fresh "E" in destruct t eqn:E
    end.

(** What a match of the circa pattern puts in its groups. *)
Lemma partial_date_re_circa_groups (s : text) (g : groups) :
  Re.match_ true partial_date_re_circa s = Some g ->
  exists y, g = [(str "year", y)] /\ digit_run y.
Proof.
  unfold Re.match_, partial_date_re_circa. cbn [run Nat.eqb].
  intros H. follow_run;
    (eexists; split; [reflexivity|]; eapply captured_run; eassumption).
Qed.

(** ** [parse_date] *)

Lemma precision_of_range (m d : option text) : 0 <= precision_of m d <= 3.
Proof. destruct m, d; simpl; unfold YEAR, MONTH, DAY; lia. Qed.

Lemma lookup_entries (y : text) (m d : option text) :
  let g := entry "day" d ++ entry "month" m ++ [(str "year", y)] in
  lookup (str "year") g = Some y
  /\ lookup (str "month") g = m
  /\ lookup (str "day") g = d.
Proof. destruct m, d; repeat split. Qed.

Lemma int_or_1_run (t : text) :
  digit_run t -> int_or_1 (Some t) = int t /\ truthy (Some t) = true.
Proof. intros [H _]. destruct t; [contradiction|]. split; reflexivity. Qed.

Lemma int_or_1_component (o : option text) :
  short_run o ->
  int_or_1 o = component o
  /\ truthy o = match o with Some _ => true | None => false end.
Proof.
  destruct o as [t|]; simpl; [|auto].
  intros [H _]. apply (int_or_1_run t H).
Qed.

(** The plain branch, once the pattern has matched. *)
Lemma parse_date_plain (s : text) (g : groups) :
  Re.match_ false partial_date_re s = Some g ->
  parse_date s =
    match date_new (component (lookup (str "year") g))
                   (component (lookup (str "month") g))
                   (component (lookup (str "day") g)) with
    | Some date =>
        Return (date, precision_of (lookup (str "month") g)
                                   (lookup (str "day") g))
    | None => Raise (parse_error s)
    end.
Proof.
  intros H. unfold parse_date.
  rewrite (patterns_disjoint s g H), H.
  destruct (partial_date_re_groups s g H)
    as (y & m & d & -> & Hy & Hm & Hd & _).
  destruct (lookup_entries y m d) as (-> & -> & ->).
  destruct (int_or_1_run y Hy) as [-> _].
  destruct (int_or_1_component m Hm) as [-> ->].
  destruct (int_or_1_component d Hd) as [-> ->].
  simpl component.
  destruct (date_new _ _ _); destruct m, d; reflexivity.
Qed.

(** The circa branch, once its pattern has matched. *)
Lemma parse_date_circa (s : text) (g : groups) :
  Re.match_ true partial_date_re_circa s = Some g ->
  parse_date s =
    match date_new (component (lookup (str "year") g)) 1 1 with
    | Some date => Return (date, CIRCA)
    | None => Raise ValueError
    end.
Proof.
  intros H. unfold parse_date. rewrite H.
  destruct (partial_date_re_circa_groups s g H) as (y & -> & _).
  simpl. destruct (date_new _ _ _); reflexivity.
Qed.

(** No pattern matches: [match] is [None], [match.groupdict()] raises
    the [AttributeError] the handler catches. *)
Lemma parse_date_no_match (s : text) :
  Re.match_ true partial_date_re_circa s = None ->
  Re.match_ false partial_date_re s = None ->
  parse_date s = Raise (parse_error s).
Proof. intros H1 H2. unfold parse_date. rewrite H1, H2. reflexivity. Qed.

(** Whatever [parse_date] returns is a valid date with one of the tags. *)
Lemma parse_date_returns (s : text) (d : date) (z : Z) :
  parse_date s = Return (d, z) -> date_ok d = true /\ 0 <= z <= 3.
Proof.
  destruct (Re.match_ true partial_date_re_circa s) as [g|] eqn:C.
  - rewrite (parse_date_circa s g C).
    destruct (date_new _ _ _) as [r|] eqn:E; [|discriminate].
    intros H. injection H as <- <-. apply date_new_ok in E.
    unfold CIRCA. split; [tauto|lia].
  - destruct (Re.match_ false partial_date_re s) as [g|] eqn:P.
    + rewrite (parse_date_plain s g P).
      destruct (date_new _ _ _) as [r|] eqn:E; [|discriminate].
      intros H. injection H as <- <-. apply date_new_ok in E.
      split; [tauto|apply precision_of_range].
    + rewrite (parse_date_no_match s C P). discriminate.
Qed.

(** ** [__init__] *)

Lemma init_date (d : date) (v : value) :
  date_ok d = true ->
  exists z, __init__ (VDate d) v = Return (mkPartialDate (Some d) (Some z))
            /\ 0 <= z <= 3
            /\ z = match in_tags v with Some t => t | None => DAY end.
Proof.
  intros H. unfold __init__. simpl.
  apply (set_precision_valid (mkPartialDate (Some d) None) d v eq_refl H).
Qed.

Lemma in_tags_tag (z : Z) : 0 <= z <= 3 -> in_tags (VInt z) = Some z.
Proof.
  intros H. unfold in_tags, YEAR, MONTH, DAY, CIRCA.
  assert (E : z = 0 \/ z = 1 \/ z = 2 \/ z = 3) by lia.
  destruct E as [->| [->| [->| ->]]]; reflexivity.
Qed.

(** From a text: the parsed pair, whatever [precision] was passed. *)
Lemma init_str (s : text) (v : value) (p : PartialDate) :
  __init__ (VStr s) v = Return p <->
  exists d z, parse_date s = Return (d, z)
              /\ p = mkPartialDate (Some d) (Some z).
Proof.
  unfold __init__. destruct (parse_date s) as [[d z]|e] eqn:E; simpl.
  - destruct (parse_date_returns s d z E) as [Hd Hz].
    destruct (set_precision_valid (mkPartialDate (Some d) None) d (VInt z)
                eq_refl Hd) as (t & -> & _ & ->).
    rewrite (in_tags_tag z Hz). split.
    + intros H. injection H as <-. eauto.
    + intros (d' & z' & H & ->). injection H as <- <-. reflexivity.
  - split; [discriminate|]. intros (d' & z' & H & _). discriminate.
Qed.

Lemma init_invariant (v w : value) (p : PartialDate) :
  value_ok v = true -> __init__ v w = Return p -> invariant p = true.
Proof.
  intros Hv H. destruct v; try discriminate.
  - apply init_str in H. destruct H as (d & z & H & ->).
    destruct (parse_date_returns s d z H) as [Hd Hz].
    unfold invariant. simpl. rewrite Hd. simpl.
    apply andb_true_iff. split; apply Z.leb_le; lia.
  - destruct (init_date d w Hv) as (z & E & Hz & _).
    rewrite E in H. injection H as <-.
    unfold invariant. simpl. simpl in Hv. rewrite Hv. simpl.
    apply andb_true_iff. split; apply Z.leb_le; lia.
Qed.

(** ** Ordering *)

Lemma date_eqb_refl (a : date) : date_eqb a a = true.
Proof. now apply date_eqb_eq. Qed.

(** C1, as the specification has it: the comparison is not true. *)
Lemma circa_ge_day_counterexample :
  ~ (exists a b,
        __init__ (VStr (str "circa 2020")) (VInt DAY) = Return a
        /\ __init__ (VStr (str "2020-06-15")) (VInt DAY) = Return b
        /\ __ge__ a (VPartialDate b) = Return (PyBool true)).
Proof.
  intros (a & b & Ha & Hb & H).
  vm_compute in Ha, Hb. injection Ha as <-. injection Hb as <-.
  vm_compute in H. discriminate H.
Qed.

(** C1, amended: [PartialDate("circa 2020") >= PartialDate("2020-06-15")]
    is false, since the first date, 2020-01-01, is earlier than
    2020-06-15 and [>=] needs the date and the rank to be at least the
    other's.  Against [PartialDate("2020-01-01")], whose date is the
    same, it is true: the rank of CIRCA (3) exceeds that of DAY (2). *)
Theorem circa_ge_day :
  __init__ (VStr (str "circa 2020")) (VInt DAY)
    = Return (mkPartialDate (Some (mkdate 2020 1 1)) (Some CIRCA))
  /\ __init__ (VStr (str "2020-06-15")) (VInt DAY)
    = Return (mkPartialDate (Some (mkdate 2020 6 15)) (Some DAY))
  /\ (a <- __init__ (VStr (str "circa 2020")) (VInt DAY) ;;
      b <- __init__ (VStr (str "2020-06-15")) (VInt DAY) ;;
      __ge__ a (VPartialDate b)) = Return (PyBool false)
  /\ date_geb (mkdate 2020 1 1) (mkdate 2020 6 15) = false
  /\ (a <- __init__ (VStr (str "circa 2020")) (VInt DAY) ;;
      b <- __init__ (VStr (str "2020-01-01")) (VInt DAY) ;;
      __ge__ a (VPartialDate b)) = Return (PyBool true).
Proof. repeat split. Qed.

(** C2, as the specification has it: a later date with a lower rank is
    not [>=] under the code, and is under the lexicographic order. *)
Lemma ordering_lexicographic_counterexample :
  ~ (forall (da db : date) (pa pb : Z),
        __ge__ (mkPartialDate (Some da) (Some pa))
               (VPartialDate (mkPartialDate (Some db) (Some pb)))
        = Return (PyBool (lexicographic_ge da pa db pb))).
Proof.
  intros H.
  specialize (H (mkdate 2021 1 1) (mkdate 2020 1 1) YEAR DAY).
  vm_compute in H. discriminate H.
Qed.

(** C2, amended: for every pair of PartialDate values a and b, [a >= b]
    holds exactly when the date of a is at least the date of b and the
    rank of a (YEAR=0 < MONTH=1 < DAY=2 < CIRCA=3) is at least the rank
    of b, and [a > b] when moreover a and b differ; when the two dates
    are equal the result is decided by the ranks alone. *)
Theorem ordering_componentwise (da db : date) (pa pb : Z) :
  let a := mkPartialDate (Some da) (Some pa) in
  let b := mkPartialDate (Some db) (Some pb) in
  let a' := mkPartialDate (Some db) (Some pa) in
  __ge__ a (VPartialDate b) = Return (PyBool (date_geb da db && (pb <=? pa)))
  /\ __gt__ a (VPartialDate b)
     = Return (PyBool (date_geb da db && (pb <=? pa)
                       && negb (date_eqb da db && (pa =? pb))))
  /\ __ge__ a' (VPartialDate b) = Return (PyBool (pb <=? pa))
  /\ __gt__ a' (VPartialDate b) = Return (PyBool (pb <? pa)).
Proof.
  intros a b a'.
  assert (G : forall x y, __ge__ (mkPartialDate (Some x) (Some pa))
                            (VPartialDate (mkPartialDate (Some y) (Some pb)))
                          = Return (PyBool (date_geb x y && (pb <=? pa)))).
  { intros x y. unfold __ge__, date_, precision. simpl.
    rewrite Z.geb_leb. destruct (date_geb x y); reflexivity. }
  assert (T : forall x y, __gt__ (mkPartialDate (Some x) (Some pa))
                            (VPartialDate (mkPartialDate (Some y) (Some pb)))
                          = Return (PyBool (date_geb x y && (pb <=? pa)
                                            && negb (date_eqb x y && (pa =? pb))))).
  { intros x y. unfold __gt__. cbv beta iota. rewrite G. simpl.
    destruct (date_geb x y && (pb <=? pa)); reflexivity. }
  repeat split.
  - apply G.
  - apply T.
  - subst a' b. rewrite G, date_geb_refl. reflexivity.
  - subst a' b. rewrite T, date_geb_refl, date_eqb_refl. simpl. f_equal. f_equal.
    destruct (Z.leb_spec pb pa), (Z.eqb_spec pa pb), (Z.ltb_spec pb pa);
      simpl; try reflexivity; lia.
Qed.

(** ** Normalisation *)

(** C3: built from the date 2020-06-15 with precision MONTH, YEAR or
    CIRCA, or assigned one of them afterwards, the object keeps the day 15
    and the month 6: the dates that [replace] returns are dropped. *)
Theorem precision_does_not_normalise :
  __init__ (VDate (mkdate 2020 6 15)) (VInt MONTH)
    = Return (mkPartialDate (Some (mkdate 2020 6 15)) (Some MONTH))
  /\ __init__ (VDate (mkdate 2020 6 15)) (VInt YEAR)
    = Return (mkPartialDate (Some (mkdate 2020 6 15)) (Some YEAR))
  /\ __init__ (VDate (mkdate 2020 6 15)) (VInt CIRCA)
    = Return (mkPartialDate (Some (mkdate 2020 6 15)) (Some CIRCA))
  /\ set_precision (mkPartialDate (Some (mkdate 2020 6 15)) (Some DAY))
       (VInt MONTH)
    = Return (mkPartialDate (Some (mkdate 2020 6 15)) (Some MONTH)).
Proof. repeat split. Qed.

(** C10: on an object that holds a valid date, an assignment to
    [precision] returns and leaves the date as it was. *)
Theorem precision_assignment_keeps_date
    (self : PartialDate) (d : date) (v : value) :
  _date self = Some d -> date_ok d = true ->
  exists self', set_precision self v = Return self' /\ _date self' = Some d.
Proof.
  intros Hd Hok.
  destruct (set_precision_valid self d v Hd Hok) as (z & E & _).
  eexists. split; [exact E|reflexivity].
Qed.

Lemma precision_assignment_keeps_date_witness :
  exists self',
    set_precision (mkPartialDate (Some (mkdate 2020 6 15)) (Some DAY))
      (VInt MONTH) = Return self'
    /\ _date self' = Some (mkdate 2020 6 15).
Proof.
  apply (precision_assignment_keeps_date
           (mkPartialDate (Some (mkdate 2020 6 15)) (Some DAY))
           (mkdate 2020 6 15) (VInt MONTH)); reflexivity.
Defined.

Lemma in_tags_other (v : value) :
  v <> VInt YEAR -> v <> VInt MONTH -> v <> VInt DAY -> v <> VInt CIRCA ->
  in_tags v = None.
Proof.
  intros H0 H1 H2 H3. destruct (in_tags v) as [z|] eqn:E; [|reflexivity].
  apply in_tags_range in E. destruct E as [-> Hz].
  unfold YEAR, MONTH, DAY, CIRCA in *.
  assert (E : z = 0 \/ z = 1 \/ z = 2 \/ z = 3) by lia.
  destruct E as [->| [->| [->| ->]]]; congruence.
Qed.

(** C6: a precision that is none of the four tags is stored as DAY, by
    the constructor and by an assignment, and nothing is raised. *)
Theorem unrecognised_precision_is_day
    (d : date) (self : PartialDate) (v : value) :
  v <> VInt YEAR -> v <> VInt MONTH -> v <> VInt DAY -> v <> VInt CIRCA ->
  __init__ (VDate d) v = Return (mkPartialDate (Some d) (Some DAY))
  /\ set_precision self v = Return (mkPartialDate (_date self) (Some DAY)).
Proof.
  intros H0 H1 H2 H3. pose proof (in_tags_other v H0 H1 H2 H3) as E.
  unfold __init__, set_precision. simpl. rewrite E. auto.
Qed.

Lemma unrecognised_precision_is_day_witness :
  __init__ (VDate (mkdate 2020 6 15)) (VInt 99)
    = Return (mkPartialDate (Some (mkdate 2020 6 15)) (Some DAY))
  /\ set_precision (mkPartialDate (Some (mkdate 1999 2 1)) (Some MONTH)) VNone
    = Return (mkPartialDate (Some (mkdate 1999 2 1)) (Some DAY)).
Proof.
  split.
  - apply (unrecognised_precision_is_day (mkdate 2020 6 15) new (VInt 99));
      discriminate.
  - apply (unrecognised_precision_is_day (mkdate 2020 6 15)
             (mkPartialDate (Some (mkdate 1999 2 1)) (Some MONTH)) VNone);
      discriminate.
Defined.

(** ** Parsing *)

(** C7: when the plain pattern matches and the segments form a date, the
    result is that date, a missing month or day counting as 1, with the
    precision DAY if there is a day segment, else MONTH if there is a
    month segment, else YEAR; when the circa pattern matches, the result
    is the first of January of the year, with the precision CIRCA. *)
Theorem parse_date_precision (s : text) (g : groups) :
  let y := component (lookup (str "year") g) in
  let m := lookup (str "month") g in
  let d := lookup (str "day") g in
  (Re.match_ false partial_date_re s = Some g ->
   check_date_fields y (component m) (component d) = true ->
   parse_date s
   = Return (mkdate y (component m) (component d),
             match d, m with
             | Some _, _ => DAY
             | None, Some _ => MONTH
             | None, None => YEAR
             end))
  /\ (Re.match_ true partial_date_re_circa s = Some g ->
      check_date_fields y 1 1 = true ->
      parse_date s = Return (mkdate y 1 1, CIRCA)).
Proof.
  intros y m d. split; intros H V.
  - rewrite (parse_date_plain s g H). unfold date_new.
    fold y m d. rewrite V. reflexivity.
  - rewrite (parse_date_circa s g H). unfold date_new.
    fold y. rewrite V. reflexivity.
Qed.

Lemma parse_date_precision_witness :
  parse_date (str "1999-2") = Return (mkdate 1999 2 1, MONTH)
  /\ parse_date (str "2020-06-15") = Return (mkdate 2020 6 15, DAY)
  /\ parse_date (str "1850") = Return (mkdate 1850 1 1, YEAR)
  /\ parse_date (str "Circa 1850") = Return (mkdate 1850 1 1, CIRCA).
Proof.
  split; [|split; [|split]].
  - exact (proj1 (parse_date_precision (str "1999-2")
                    [(str "month", str "2"); (str "year", str "1999")])
             eq_refl eq_refl).
  - exact (proj1 (parse_date_precision (str "2020-06-15")
                    [(str "day", str "15"); (str "month", str "06");
                     (str "year", str "2020")])
             eq_refl eq_refl).
  - exact (proj1 (parse_date_precision (str "1850") [(str "year", str "1850")])
             eq_refl eq_refl).
  - exact (proj2 (parse_date_precision (str "Circa 1850")
                    [(str "year", str "1850")])
             eq_refl eq_refl).
Defined.

(** The plain branch turns the [ValueError] of the date constructor into
    the validation error. *)
Lemma parse_date_plain_invalid (s : text) (g : groups) :
  Re.match_ false partial_date_re s = Some g ->
  check_date_fields (component (lookup (str "year") g))
                    (component (lookup (str "month") g))
                    (component (lookup (str "day") g)) = false ->
  parse_date s = Raise (parse_error s).
Proof.
  intros H V. rewrite (parse_date_plain s g H). unfold date_new.
  rewrite V. reflexivity.
Qed.

(** The circa branch is outside the [try]: there the [ValueError] of the
    date constructor reaches the caller. *)
Lemma parse_date_circa_invalid (s : text) (g : groups) :
  Re.match_ true partial_date_re_circa s = Some g ->
  check_date_fields (component (lookup (str "year") g)) 1 1 = false ->
  parse_date s = Raise ValueError.
Proof.
  intros H V. rewrite (parse_date_circa s g H). unfold date_new.
  rewrite V. reflexivity.
Qed.

(** C8: the texts "c. 0" and "circa 10000" match the circa pattern and
    have a year outside 1..9999; [parse_date] raises [ValueError] for
    them, not the validation error, which the plain branch raises for
    "2020-13", "2020-02-30" and "0", and which a text that matches no
    pattern gets. *)
Theorem parse_date_circa_value_error :
  parse_date (str "c. 0") = Raise ValueError
  /\ parse_date (str "circa 10000") = Raise ValueError
  /\ parse_date (str "2020-13") = Raise (parse_error (str "2020-13"))
  /\ parse_date (str "2020-02-30") = Raise (parse_error (str "2020-02-30"))
  /\ parse_date (str "0") = Raise (parse_error (str "0"))
  /\ parse_date (str "not-a-date") = Raise (parse_error (str "not-a-date")).
Proof. repeat split. Qed.

(** ** The string representation *)

(** C5: the object built from the date 2020-06-15 with the precision
    MONTH prints as "2020-06"; the object built from that text has the
    date 2020-06-01 and is not equal to the first.  The same happens
    with the precision YEAR. *)
Theorem repr_not_idempotent (zero_pad : bool) :
  let again v :=
    p <- __init__ (VDate (mkdate 2020 6 15)) (VInt v) ;;
    match __repr__ zero_pad p with
    | Some t =>
        q <- __init__ (VStr t) (VInt DAY) ;;
        Return (t, q, __eq__ q (VPartialDate p))
    | None => Raise TypeError
    end in
  again MONTH
  = Return (str "2020-06",
            mkPartialDate (Some (mkdate 2020 6 1)) (Some MONTH),
            PyBool false)
  /\ again YEAR
  = Return (str "2020",
            mkPartialDate (Some (mkdate 2020 1 1)) (Some YEAR),
            PyBool false).
Proof. destruct zero_pad; split; reflexivity. Qed.

(** ** The field *)

Lemma invariant_fields (p : PartialDate) :
  invariant p = true ->
  exists d z, p = mkPartialDate (Some d) (Some z)
              /\ date_ok d = true /\ 0 <= z <= 3.
Proof.
  unfold invariant. destruct p as [[d|] [z|]]; simpl; try discriminate.
  intros H. prop_of_bool. exists d, z. repeat split; auto.
Qed.

Lemma to_python_invariant (self : PartialDateField) (v : value)
    (p : PartialDate) :
  value_ok v = true -> to_python self v = Return (Some p) ->
  invariant p = true.
Proof.
  intros Hv H. destruct v; simpl in H; try discriminate.
  - destruct (__init__ (VStr s) (VInt DAY)) as [q|] eqn:E; [|discriminate].
    injection H as <-. apply (init_invariant (VStr s) (VInt DAY) q eq_refl E).
  - injection H as <-. exact Hv.
Qed.

(** C9: [get_prep_value] returns [None] for [None] and for the empty
    text; for every other value that [to_python] accepts it returns a
    date-time whose date is that of the PartialDate and whose seconds are
    its precision. *)
Theorem get_prep_value_writes (self : PartialDateField) (v : value)
    (p : PartialDate) :
  get_prep_value self VNone = Return None
  /\ get_prep_value self (VStr []) = Return None
  /\ (value_ok v = true -> to_python self v = Return (Some p) ->
      exists r, get_prep_value self v = Return (Some r)
                /\ date_ p = Some (date_of r)
                /\ precision p = Some (second r)).
Proof.
  split; [reflexivity|]. split; [reflexivity|]. intros Hv H.
  destruct (invariant_fields p (to_python_invariant self v p Hv H))
    as (d & z & -> & Hd & Hz).
  assert (E : is_none_or_empty v = false).
  { destruct v as [| |[|c s]| |]; try reflexivity; discriminate H. }
  unfold get_prep_value. rewrite E, H. simpl.
  unfold datetime_new. unfold date_ok in Hd. rewrite Hd.
  assert (T : check_time_fields 0 0 z 0 = true).
  { unfold check_time_fields.
    repeat (apply andb_true_iff; split); apply Z.leb_le; lia. }
  rewrite T. simpl. eexists. split; [reflexivity|].
  destruct d; split; reflexivity.
Qed.

Lemma get_prep_value_writes_witness :
  exists r,
    get_prep_value {| name := str "born" |} (VStr (str "1999-02"))
    = Return (Some r)
    /\ Some (mkdate 1999 2 1) = Some (date_of r)
    /\ Some MONTH = Some (second r).
Proof.
  apply (proj2 (proj2 (get_prep_value_writes {| name := str "born" |}
                         (VStr (str "1999-02"))
                         (mkPartialDate (Some (mkdate 1999 2 1)) (Some MONTH))))
           eq_refl eq_refl).
Defined.

(** ** Numbers and their digits *)

Lemma digit_val_range (c : ascii) :
  is_digit c = true -> 0 <= digit_val c <= 9.
Proof. unfold is_digit, digit_val. intros H. prop_of_bool. lia. Qed.


Lemma digit_val_zero (c : ascii) :
  Ascii.eqb c "0" = true <-> digit_val c = 0.
Proof.
  rewrite Ascii.eqb_eq. unfold digit_val, code. split.
  - intros ->. reflexivity.
  - intros H. rewrite <- (ascii_N_embedding c).
    replace (N_of_ascii c) with 48%N by lia. reflexivity.
Qed.

Lemma forallb_cons_digit (c : ascii) (t : text) :
  forallb is_digit (c :: t) = true ->
  is_digit c = true /\ forallb is_digit t = true.
Proof. simpl. intros H. now apply andb_true_iff in H. Qed.

Lemma fold_digits_acc (t : text) (acc : Z) :
  fold_left (fun a c => a * 10 + digit_val c) t acc
  = acc * 10 ^ Z.of_nat (List.length t) + int t.
Proof.
  unfold int. revert acc. induction t as [|c t IH]; intros acc.
  - simpl. lia.
  - cbn [fold_left List.length]. rewrite IH, (IH (0 * 10 + digit_val c)).
    rewrite Nat2Z.inj_succ, Z.pow_succ_r by lia. lia.
Qed.

Lemma int_cons (c : ascii) (t : text) :
  int (c :: t) = digit_val c * 10 ^ Z.of_nat (List.length t) + int t.
Proof.
  unfold int at 1. cbn [fold_left]. rewrite fold_digits_acc. lia.
Qed.


(** [strip_zeros] keeps the number and leaves no leading zero, unless
    the number is 0. *)
Lemma strip_zeros_int (t : text) :
  digit_run t ->
  digit_run (strip_zeros t) /\ int (strip_zeros t) = int t
  /\ (0 < int t -> exists c r, strip_zeros t = c :: r /\ 1 <= digit_val c).
Proof.
  induction t as [|c t IH]; intros [Hn Hd]; [contradiction|].
  apply forallb_cons_digit in Hd. destruct Hd as [Hc Ht].
  pose proof (digit_val_range c Hc) as Hr.
  destruct t as [|c' t'].
  - simpl. repeat split; try discriminate.
    + simpl. now rewrite Hc.
    + intros Hp. exists c, []. split; [reflexivity|].
      rewrite int_cons in Hp. unfold int in Hp. simpl in Hp. lia.
  - cbn [strip_zeros]. destruct (Ascii.eqb c "0") eqn:E.
    + apply digit_val_zero in E.
      assert (Hi : int (c :: c' :: t') = int (c' :: t'))
        by (rewrite (int_cons c), E; lia).
      rewrite Hi. apply IH. split; [discriminate|assumption].
    + repeat split; try discriminate.
      * simpl. simpl in Ht. now rewrite Hc, Ht.
      * intros _. exists c, (c' :: t'). split; [reflexivity|].
        destruct (Z.eq_dec (digit_val c) 0) as [Z|Z]; [|lia].
        apply digit_val_zero in Z. congruence.
Qed.







(** ** Formatting what was parsed *)

Lemma format_default_cases (zero_pad : bool) (d : date) (z : Z) :
  format_default zero_pad (mkPartialDate (Some d) (Some z)) =
    let y := year_text zero_pad (year d) in
    if z =? YEAR then Some y
    else if z =? MONTH then Some (y ++ "-"%char :: digits2 (month d))
    else if z =? CIRCA then Some (str "c. " ++ y)
    else Some (y ++ "-"%char :: digits2 (month d)
                 ++ "-"%char :: digits2 (day d)).
Proof.
  unfold format_default, format, is_precision_year, is_precision_month,
    is_precision_circa, precision_is, precision. cbn [_precision _date].
  destruct (z =? YEAR); [|destruct (z =? MONTH); [|destruct (z =? CIRCA)]];
    cbn -[year_text digits2]; rewrite ?app_nil_r; reflexivity.
Qed.





(** ** Objects built from a text *)

(** The dates that [parse_date] returns are normalised by the way they
    are built: a missing day is 1, a missing month is 1. *)
Lemma parse_date_normalised (s : text) (d : date) (z : Z) :
  parse_date s = Return (d, z) ->
  (z = MONTH -> day d = 1)
  /\ (z = YEAR \/ z = CIRCA -> month d = 1 /\ day d = 1).
Proof.
  destruct (Re.match_ true partial_date_re_circa s) as [g|] eqn:C.
  - rewrite (parse_date_circa s g C).
    destruct (date_new _ 1 1) as [r|] eqn:E; [|discriminate].
    apply date_new_ok in E. destruct E as [-> _].
    intros H. injection H as <- <-. simpl. auto.
  - destruct (Re.match_ false partial_date_re s) as [g|] eqn:P.
    + rewrite (parse_date_plain s g P).
      generalize (lookup (str "day") g) (lookup (str "month") g).
      intros dd m.
      destruct (date_new _ _ _) as [r|] eqn:E; [|discriminate].
      apply date_new_ok in E. destruct E as [-> _].
      intros H. injection H as <- <-. cbn [month day].
      destruct dd, m; unfold precision_of, component, YEAR, MONTH, DAY, CIRCA;
        repeat split; intros; try reflexivity; lia.
    + rewrite (parse_date_no_match s C P). discriminate.
Qed.

(** Scenarios: "c. 1850" and "1999-02". *)
Example scenario_circa_1850 (zero_pad : bool) :
  __init__ (VStr (str "c. 1850")) (VInt DAY)
    = Return (mkPartialDate (Some (mkdate 1850 1 1)) (Some CIRCA))
  /\ format_default zero_pad
       (mkPartialDate (Some (mkdate 1850 1 1)) (Some CIRCA))
     = Some (str "c. 1850").
Proof. destruct zero_pad; split; reflexivity. Qed.

Example scenario_1999_02 (zero_pad : bool) :
  __init__ (VStr (str "1999-02")) (VInt DAY)
    = Return (mkPartialDate (Some (mkdate 1999 2 1)) (Some MONTH))
  /\ format_default zero_pad
       (mkPartialDate (Some (mkdate 1999 2 1)) (Some MONTH))
     = Some (str "1999-02").
Proof. destruct zero_pad; split; reflexivity. Qed.

(** ** The texts the patterns accept *)

Lemma backtrack_first {A} (lo n : nat) (f : nat -> option A) (x : A) :
  (lo <= n)%nat -> f n = Some x -> backtrack lo n f = Some x.
Proof.
  intros Hl Hf. destruct n; simpl.
  - destruct (0 <? lo)%nat eqn:E; [apply Nat.ltb_lt in E; lia|].
    now rewrite Hf.
  - destruct (S n <? lo)%nat eqn:E; [apply Nat.ltb_lt in E; lia|].
    now rewrite Hf.
Qed.

Lemma span_app (k : cclass) (hi : option nat) (t rest : text) :
  forallb (in_class k) t = true ->
  stops k rest = true ->
  match hi with Some h => (List.length t <= h)%nat | None => True end ->
  span k hi (t ++ rest) = List.length t.
Proof.
  revert hi. induction t as [|c t IH]; intros hi Ht Hr Hh.
  - simpl. destruct hi as [[|h]|]; try reflexivity;
      destruct rest as [|c r]; try reflexivity;
      simpl in Hr |- *; destruct (in_class k c); try reflexivity;
      discriminate.
  - simpl in Ht. apply andb_true_iff in Ht. destruct Ht as [Hc Ht].
    destruct hi as [[|h]|]; simpl in Hh |- *; try lia;
      rewrite Hc; f_equal; apply IH; simpl; auto; lia.
Qed.

Lemma firstn_run (t rest : text) (pos : nat) :
  firstn (pos + List.length t - pos) (t ++ rest) = t.
Proof.
  replace (pos + List.length t - pos)%nat with (List.length t) by lia.
  induction t; simpl; congruence.
Qed.

Lemma skipn_run (t rest : text) : skipn (List.length t) (t ++ rest) = rest.
Proof. induction t; simpl; auto. Qed.

(** [\d+] and [\d{1,2}] take a digit run that ends where the digits
    end, if the rest of the pattern then succeeds. *)
Lemma rep_digits (t rest : text) (hi : option nat)
    (x : groups) (f : nat -> option groups) :
  digit_run t -> stops Digit rest = true ->
  match hi with Some h => (List.length t <= h)%nat | None => True end ->
  f (List.length t) = Some x ->
  backtrack 1 (span Digit hi (t ++ rest)) f = Some x.
Proof.
  intros [Hn Ht] Hr Hh Hk.
  rewrite (span_app Digit hi t rest Ht Hr Hh).
  apply backtrack_first; [|assumption].
  destruct t; [contradiction|simpl; lia].
Qed.

Lemma firstn_run_end (t : text) (pos : nat) :
  firstn (pos + List.length t - pos) t = t.
Proof.
  pose proof (firstn_run t [] pos) as H. now rewrite app_nil_r in H.
Qed.

Lemma skipn_run_end (t : text) : skipn (List.length t) t = [].
Proof.
  pose proof (skipn_run t []) as H. now rewrite app_nil_r in H.
Qed.

Lemma rep_digits_end (t : text) (hi : option nat)
    (x : groups) (f : nat -> option groups) :
  digit_run t ->
  match hi with Some h => (List.length t <= h)%nat | None => True end ->
  f (List.length t) = Some x ->
  backtrack 1 (span Digit hi t) f = Some x.
Proof.
  intros Ht Hh Hf.
  pose proof (rep_digits t [] hi x f Ht eq_refl Hh Hf) as H.
  now rewrite app_nil_r in H.
Qed.

Lemma stops_segment (m d : option text) :
  stops Digit (segment m ++ segment d) = true.
Proof. destruct m, d; reflexivity. Qed.

(** The plain pattern accepts a year, then at most a month segment, then
    at most a day segment, and captures just these. *)
Lemma partial_date_re_accepts (y : text) (m d : option text) :
  digit_run y -> short_run m -> short_run d -> (m = None -> d = None) ->
  Re.match_ false partial_date_re (y ++ segment m ++ segment d)
  = Some (entry "day" d ++ entry "month" m ++ [(str "year", y)]).
Proof.
  intros Hy Hm Hd Hmd. unfold Re.match_, partial_date_re.
  cbn [run Nat.eqb].
  apply rep_digits; auto using stops_segment.
  rewrite skipn_run, firstn_run.
  destruct m as [m|]; [|rewrite (Hmd eq_refl); reflexivity].
  destruct Hm as [Hm Hlm]. cbn [segment app chr_eqb Ascii.eqb Bool.eqb].
  erewrite (rep_digits m (segment d) (Some 2%nat)); [reflexivity|auto| |auto|].
  { destruct d; reflexivity. }
  rewrite skipn_run, firstn_run.
  destruct d as [d|]; [|reflexivity].
  destruct Hd as [Hd Hld]. cbn [segment app chr_eqb Ascii.eqb Bool.eqb].
  erewrite (rep_digits_end d (Some 2%nat)); [reflexivity|auto|auto|].
  rewrite skipn_run_end, firstn_run_end. reflexivity.
Qed.

Lemma digit_not_space (c : ascii) :
  is_digit c = true -> is_space c = false.
Proof.
  unfold is_digit, is_space. intros H. prop_of_bool.
  apply orb_false_iff. split; [apply Z.eqb_neq; lia|].
  apply andb_false_iff. right. apply Z.leb_gt. lia.
Qed.

(** The circa pattern accepts the form that [format] writes. *)
Lemma partial_date_re_circa_accepts (y : text) :
  digit_run y ->
  Re.match_ true partial_date_re_circa (str "c. " ++ y)
  = Some [(str "year", y)].
Proof.
  intros Hy. unfold Re.match_, partial_date_re_circa.
  cbn [run Nat.eqb str list_ascii_of_string app].
  change (chr_eqb true "c" "c") with true.
  change (chr_eqb true "i" ".") with false.
  change (chr_eqb true "." ".") with true.
  cbv iota.
  assert (S1 : span Space None (" "%char :: y) = 1%nat).
  { apply (span_app Space None [" "%char] y); auto.
    destruct Hy as [Hn Hd]. destruct y as [|c y]; [contradiction|].
    apply forallb_cons_digit in Hd. destruct Hd as [Hc _].
    simpl. now rewrite (digit_not_space c Hc). }
  rewrite S1.
  erewrite (backtrack_first 0 1); [reflexivity|lia|].
  cbn [skipn]. apply rep_digits_end; auto.
  now rewrite skipn_run_end, firstn_run_end.
Qed.

(** [parse_date] on the texts of the wire format. *)
Lemma parse_date_segments (y : text) (m d : option text) :
  digit_run y -> short_run m -> short_run d -> (m = None -> d = None) ->
  parse_date (y ++ segment m ++ segment d) =
    match date_new (int y) (component m) (component d) with
    | Some date => Return (date, precision_of m d)
    | None => Raise (parse_error (y ++ segment m ++ segment d))
    end.
Proof.
  intros Hy Hm Hd Hmd.
  rewrite (parse_date_plain _ _ (partial_date_re_accepts y m d Hy Hm Hd Hmd)).
  destruct (lookup_entries y m d) as (Ey & Em & Ed).
  cbv zeta in Ey, Em, Ed. rewrite Ey, Em, Ed. reflexivity.
Qed.

Lemma parse_date_c_dot (y : text) :
  digit_run y ->
  parse_date (str "c. " ++ y) =
    match date_new (int y) 1 1 with
    | Some date => Return (date, CIRCA)
    | None => Raise ValueError
    end.
Proof.
  intros Hy.
  rewrite (parse_date_circa _ _ (partial_date_re_circa_accepts y Hy)).
  reflexivity.
Qed.

(** ** From a number to its digits and back *)

Lemma code_digit_char (n : Z) :
  0 <= n <= 9 -> code (digit_char n) = n + 48.
Proof.
  intros H. unfold code, digit_char.
  rewrite N_ascii_embedding by lia. lia.
Qed.

Lemma digit_char_digit (n : Z) :
  0 <= n <= 9 ->
  is_digit (digit_char n) = true /\ digit_val (digit_char n) = n.
Proof.
  intros H. unfold is_digit, digit_val. rewrite (code_digit_char n H).
  split; [|lia].
  apply andb_true_iff. split; apply Z.leb_le; lia.
Qed.

Lemma digits2_back (n : Z) :
  0 <= n <= 99 ->
  digit_run (digits2 n) /\ (List.length (digits2 n) <= 2)%nat
  /\ int (digits2 n) = n.
Proof.
  intros H. unfold digits2.
  destruct (digit_char_digit (n / 10)) as [A1 A2];
    [Z.div_mod_to_equations; lia|].
  destruct (digit_char_digit (n mod 10)) as [B1 B2];
    [Z.div_mod_to_equations; lia|].
  repeat split; try discriminate.
  - simpl. now rewrite A1, B1.
  - simpl. lia.
  - unfold int. cbn [fold_left]. rewrite A2, B2.
    Z.div_mod_to_equations. lia.
Qed.

Lemma digits4_back (n : Z) :
  0 <= n <= 9999 ->
  digit_run (digits4 n) /\ int (digits4 n) = n.
Proof.
  intros H. unfold digits4.
  destruct (digit_char_digit (n / 1000)) as [A1 A2];
    [Z.div_mod_to_equations; lia|].
  destruct (digit_char_digit (n / 100 mod 10)) as [B1 B2];
    [Z.div_mod_to_equations; lia|].
  destruct (digit_char_digit (n / 10 mod 10)) as [C1 C2];
    [Z.div_mod_to_equations; lia|].
  destruct (digit_char_digit (n mod 10)) as [D1 D2];
    [Z.div_mod_to_equations; lia|].
  repeat split; try discriminate.
  - simpl. now rewrite A1, B1, C1, D1.
  - unfold int. cbn [fold_left]. rewrite A2, B2, C2, D2.
    Z.div_mod_to_equations. lia.
Qed.

Lemma year_text_back (zero_pad : bool) (n : Z) :
  0 <= n <= 9999 ->
  digit_run (year_text zero_pad n) /\ int (year_text zero_pad n) = n.
Proof.
  intros H. destruct (digits4_back n H) as [R I].
  unfold year_text. destruct zero_pad; [auto|].
  destruct (strip_zeros_int (digits4 n) R) as (R' & I' & _).
  split; [assumption|congruence].
Qed.

(** ** The string representation of a normalised object *)

Lemma date_new_valid (d : date) :
  date_ok d = true -> date_new (year d) (month d) (day d) = Some d.
Proof.
  unfold date_ok, date_new. intros ->. now destruct d.
Qed.

(** An object whose date is valid and normalised for its precision is
    built again from its string representation. *)
Lemma repr_round_trip (zero_pad : bool) (d : date) (z : Z) (v : value) :
  date_ok d = true -> 0 <= z <= 3 -> normalised d z ->
  exists t,
    __repr__ zero_pad (mkPartialDate (Some d) (Some z)) = Some t
    /\ __init__ (VStr t) v = Return (mkPartialDate (Some d) (Some z)).
Proof.
  intros Hd Hz [Nm Ny].
  pose proof Hd as Hb. apply check_date_fields_bounds in Hb.
  destruct (year_text_back zero_pad (year d)) as [Ry Iy]; [lia|].
  destruct (digits2_back (month d)) as (Rm & Lm & Im); [lia|].
  destruct (digits2_back (day d)) as (Rd & Ld & Id); [lia|].
  pose proof (date_new_valid d Hd) as Hnew.
  unfold __repr__. cbn [_date]. rewrite format_default_cases. cbv zeta.
  assert (E : z = YEAR \/ z = MONTH \/ z = DAY \/ z = CIRCA)
    by (unfold YEAR, MONTH, DAY, CIRCA; lia).
  destruct E as [->| [->| [->| ->]]]; cbn [Z.eqb YEAR MONTH DAY CIRCA Pos.eqb];
    eexists; (split; [reflexivity|]); apply init_str; exists d; eexists;
    (split; [|reflexivity]).
  - destruct Ny as [M D]; [auto|].
    pose proof (parse_date_segments _ None None Ry I I (fun _ => eq_refl)) as P.
    cbn [segment component precision_of] in P. rewrite !app_nil_r in P.
    rewrite P, Iy, <- M, <- D at 1. now rewrite Hnew.
  - specialize (Nm eq_refl).
    pose proof (parse_date_segments _ (Some _) None Ry (conj Rm Lm) I
                  (fun H => eq_refl)) as P.
    cbn [segment component precision_of] in P. rewrite !app_nil_r in P.
    rewrite P, Iy, Im, <- Nm at 1. now rewrite Hnew.
  - pose proof (parse_date_segments _ (Some _) (Some _) Ry (conj Rm Lm)
                  (conj Rd Ld) ltac:(discriminate)) as P.
    cbn [segment component precision_of app] in P.
    rewrite P, Iy, Im, Id. now rewrite Hnew.
  - destruct Ny as [M D]; [auto|].
    rewrite (parse_date_c_dot _ Ry), Iy, <- M, <- D at 1. now rewrite Hnew.
Qed.

(** * Further properties *)

(** ** The plain pattern and its texts *)








(** ** The circa pattern and its texts *)














(** ** [parse_date] on the texts *)









(** ** Objects: invariant, predicates, equality *)

(** X5: the constructor returns, on a date or a text, an object with a
    valid date and one of the four precisions, and the two setters keep
    such an object so: assigning a valid date returns, and assigning any
    precision returns. *)
Theorem invariant_kept (v w : value) (self : PartialDate) :
  (forall p, value_ok v = true -> __init__ v w = Return p ->
             invariant p = true)
  /\ (forall d, invariant self = true -> date_ok d = true ->
                exists self',
                  set_date self (VDate d) = Return self'
                  /\ invariant self' = true)
  /\ (invariant self = true ->
      exists self',
        set_precision self w = Return self' /\ invariant self' = true).
Proof.
  split; [|split].
  - intros p Hv H. exact (init_invariant v w p Hv H).
  - intros d Hs Hd.
    destruct (invariant_fields self Hs) as (d0 & z & -> & _ & Hz).
    eexists. split; [reflexivity|].
    unfold invariant. simpl. rewrite Hd. simpl.
    apply andb_true_iff. split; apply Z.leb_le; lia.
  - intros Hs.
    destruct (invariant_fields self Hs) as (d0 & z & -> & Hd & _).
    destruct (set_precision_valid (mkPartialDate (Some d0) (Some z)) d0 w
                eq_refl Hd) as (t & E & Ht & _).
    eexists. split; [exact E|].
    unfold invariant. simpl. rewrite Hd. simpl.
    apply andb_true_iff. split; apply Z.leb_le; lia.
Qed.

Lemma invariant_kept_witness :
  invariant (mkPartialDate (Some (mkdate 2020 6 15)) (Some DAY)) = true
  /\ (exists self',
         set_date (mkPartialDate (Some (mkdate 2020 6 15)) (Some DAY))
           (VDate (mkdate 1999 2 1)) = Return self'
         /\ invariant self' = true)
  /\ (exists self',
         set_precision (mkPartialDate (Some (mkdate 2020 6 15)) (Some DAY))
           (VInt 7) = Return self'
         /\ invariant self' = true).
Proof.
  pose (self := mkPartialDate (Some (mkdate 2020 6 15)) (Some DAY)).
  destruct (invariant_kept (VDate (mkdate 2020 6 15)) (VInt 7) self)
    as (A & B & C).
  split; [exact (A self eq_refl eq_refl)|].
  split; [exact (B (mkdate 1999 2 1) eq_refl eq_refl)|exact (C eq_refl)].
Defined.

(** X6: an object built from a text has a valid date that shows no more
    than its precision: the day is 1 under MONTH, the month and the day
    are 1 under YEAR and CIRCA. *)
Theorem text_objects_normalised (s : text) (v : value) (p : PartialDate) :
  __init__ (VStr s) v = Return p ->
  exists d z,
    p = mkPartialDate (Some d) (Some z)
    /\ date_ok d = true /\ 0 <= z <= 3 /\ normalised d z.
Proof.
  intros H. apply init_str in H. destruct H as (d & z & P & ->).
  exists d, z. destruct (parse_date_returns s d z P) as [Hd Hz].
  split; [reflexivity|]. split; [assumption|]. split; [assumption|].
  exact (parse_date_normalised s d z P).
Qed.

Lemma text_objects_normalised_witness :
  exists d z,
    mkPartialDate (Some (mkdate 1999 2 1)) (Some MONTH)
    = mkPartialDate (Some d) (Some z)
    /\ date_ok d = true /\ 0 <= z <= 3 /\ normalised d z.
Proof.
  apply (text_objects_normalised (str "1999-02") VNone). reflexivity.
Defined.

(** X7: on an object with one of the four precisions, exactly one of
    [is_precision_year], [is_precision_month], [is_precision_day] and
    [is_precision_circa] holds. *)
Theorem precision_predicates_partition (p : PartialDate) :
  invariant p = true ->
  List.length
    (filter (fun f => f p)
       [is_precision_year; is_precision_month; is_precision_day;
        is_precision_circa]) = 1%nat.
Proof.
  intros H. destruct (invariant_fields p H) as (d & z & -> & _ & Hz).
  unfold is_precision_year, is_precision_month, is_precision_day,
    is_precision_circa, precision_is, precision, YEAR, MONTH, DAY, CIRCA.
  cbn [filter _precision].
  assert (E : z = 0 \/ z = 1 \/ z = 2 \/ z = 3) by lia.
  destruct E as [->| [->| [->| ->]]]; reflexivity.
Qed.

Lemma precision_predicates_partition_witness :
  List.length
    (filter (fun f => f (mkPartialDate (Some (mkdate 1850 1 1)) (Some CIRCA)))
       [is_precision_year; is_precision_month; is_precision_day;
        is_precision_circa]) = 1%nat.
Proof.
  apply (precision_predicates_partition
           (mkPartialDate (Some (mkdate 1850 1 1)) (Some CIRCA))).
  reflexivity.
Defined.

(** X8: [==] between two PartialDate objects is true exactly when they
    hold the same date and the same precision. *)
Theorem eq_iff_equal (a b : PartialDate) :
  __eq__ a (VPartialDate b) = PyBool true <-> a = b.
Proof.
  destruct a as [da pa], b as [db pb].
  unfold __eq__, date_, precision. cbn [_date _precision]. split.
  - intros H. injection H as H. apply andb_true_iff in H.
    destruct H as [Hd Hp].
    destruct da as [da|], db as [db|]; try discriminate Hd;
      destruct pa as [pa|], pb as [pb|]; try discriminate Hp;
      simpl in Hd, Hp; try apply date_eqb_eq in Hd;
      try apply Z.eqb_eq in Hp; congruence.
  - intros H. injection H as <- <-. f_equal.
    destruct da, pa; simpl; rewrite ?date_eqb_refl, ?Z.eqb_refl; reflexivity.
Qed.

(** ** Ordering *)

Lemma date_ltb_spec (a b : date) :
  date_ltb a b = true <->
  year a < year b
  \/ (year a = year b
      /\ (month a < month b \/ (month a = month b /\ day a < day b))).
Proof.
  unfold date_ltb.
  rewrite orb_true_iff, andb_true_iff, orb_true_iff, andb_true_iff.
  rewrite !Z.ltb_lt, !Z.eqb_eq. reflexivity.
Qed.

Lemma date_geb_spec (a b : date) :
  date_geb a b = true <->
  year b < year a
  \/ (year a = year b
      /\ (month b < month a \/ (month a = month b /\ day b <= day a))).
Proof.
  unfold date_geb. rewrite negb_true_iff, <- not_true_iff_false.
  rewrite date_ltb_spec. lia.
Qed.

Lemma date_geb_antisym (a b : date) :
  date_geb a b = true -> date_geb b a = true -> a = b.
Proof.
  rewrite !date_geb_spec. intros H1 H2.
  destruct a, b; simpl in *. f_equal; lia.
Qed.

Lemma date_geb_trans (a b c : date) :
  date_geb a b = true -> date_geb b c = true -> date_geb a c = true.
Proof. rewrite !date_geb_spec. lia. Qed.

Lemma ge_true (da db : date) (pa pb : Z) :
  __ge__ (mkPartialDate (Some da) (Some pa))
    (VPartialDate (mkPartialDate (Some db) (Some pb)))
  = Return (PyBool true)
  <-> date_geb da db = true /\ pb <= pa.
Proof.
  unfold __ge__, date_, precision. cbn [_date _precision opt_geb bind].
  rewrite Z.geb_leb. destruct (date_geb da db); simpl.
  - destruct (Z.leb_spec pb pa); split; try tauto; try discriminate.
    intros [_ H']. lia.
  - split; [discriminate|]. intros [H' _]. discriminate.
Qed.

(** X9: [>=] is a partial order on the objects: every object is [>=]
    itself, two objects that are [>=] each other are the same, and
    [a >= b], [b >= c] give [a >= c]. *)
Theorem ge_partial_order (da db dc : date) (pa pb pc : Z) :
  let a := mkPartialDate (Some da) (Some pa) in
  let b := mkPartialDate (Some db) (Some pb) in
  let c := mkPartialDate (Some dc) (Some pc) in
  __ge__ a (VPartialDate a) = Return (PyBool true)
  /\ (__ge__ a (VPartialDate b) = Return (PyBool true) ->
      __ge__ b (VPartialDate a) = Return (PyBool true) -> a = b)
  /\ (__ge__ a (VPartialDate b) = Return (PyBool true) ->
      __ge__ b (VPartialDate c) = Return (PyBool true) ->
      __ge__ a (VPartialDate c) = Return (PyBool true)).
Proof.
  intros a b c. subst a b c. rewrite !ge_true. split; [|split].
  - split; [apply date_geb_refl|lia].
  - intros [D1 P1] [D2 P2].
    rewrite (date_geb_antisym da db D1 D2). f_equal. f_equal. lia.
  - intros [D1 P1] [D2 P2]. split; [|lia].
    exact (date_geb_trans da db dc D1 D2).
Qed.

Lemma ge_partial_order_witness :
  __ge__ (mkPartialDate (Some (mkdate 2021 3 1)) (Some DAY))
    (VPartialDate (mkPartialDate (Some (mkdate 2020 1 1)) (Some YEAR)))
  = Return (PyBool true)
  /\ mkPartialDate (Some (mkdate 2020 5 1)) (Some MONTH)
     = mkPartialDate (Some (mkdate 2020 5 1)) (Some MONTH).
Proof.
  split.
  - exact (proj2 (proj2 (ge_partial_order (mkdate 2021 3 1)
                           (mkdate 2020 5 1) (mkdate 2020 1 1)
                           DAY MONTH YEAR))
             eq_refl eq_refl).
  - exact (proj1 (proj2 (ge_partial_order (mkdate 2020 5 1)
                           (mkdate 2020 5 1) (mkdate 2020 5 1)
                           MONTH MONTH MONTH))
             eq_refl eq_refl).
Defined.

(** X10: [>=] is not total: [a >= b] and [b >= a] are both false exactly
    when one object has the later date and the other the higher
    precision; two objects with the same date, or with the same
    precision, are always comparable. *)
Theorem ge_incomparable_iff (da db : date) (pa pb : Z) :
  let a := mkPartialDate (Some da) (Some pa) in
  let b := mkPartialDate (Some db) (Some pb) in
  (__ge__ a (VPartialDate b) = Return (PyBool false)
   /\ __ge__ b (VPartialDate a) = Return (PyBool false))
  <-> (date_ltb db da = true /\ pa < pb)
      \/ (date_ltb da db = true /\ pb < pa).
Proof.
  intros a b. subst a b.
  unfold __ge__, date_, precision. cbn [_date _precision opt_geb bind].
  rewrite !Z.geb_leb. unfold date_geb.
  pose proof (date_ltb_spec da db) as S1.
  pose proof (date_ltb_spec db da) as S2.
  destruct (date_ltb da db) eqn:L1; destruct (date_ltb db da) eqn:L2;
    destruct (Z.leb_spec pb pa); destruct (Z.leb_spec pa pb);
    cbn [negb]; split;
    try (intros [A B]; try discriminate A; try discriminate B);
    try (intros [[A B]|[A B]]; try discriminate A; try discriminate B);
    try (split; reflexivity); try lia; try tauto;
    try (exfalso; destruct S1 as [S1 _]; destruct S2 as [S2 _];
         specialize (S1 eq_refl); specialize (S2 eq_refl); lia).
Qed.

(** X11: [>] is the strict part of [>=]: [a > b] holds exactly when
    [a >= b] and the two objects differ; it is irreflexive, it never
    holds both ways, and it is transitive. *)
Theorem gt_strict_order (da db dc : date) (pa pb pc : Z) :
  let a := mkPartialDate (Some da) (Some pa) in
  let b := mkPartialDate (Some db) (Some pb) in
  let c := mkPartialDate (Some dc) (Some pc) in
  (__gt__ a (VPartialDate b) = Return (PyBool true)
   <-> __ge__ a (VPartialDate b) = Return (PyBool true) /\ a <> b)
  /\ __gt__ a (VPartialDate a) = Return (PyBool false)
  /\ (__gt__ a (VPartialDate b) = Return (PyBool true) ->
      __gt__ b (VPartialDate a) = Return (PyBool false))
  /\ (__gt__ a (VPartialDate b) = Return (PyBool true) ->
      __gt__ b (VPartialDate c) = Return (PyBool true) ->
      __gt__ a (VPartialDate c) = Return (PyBool true)).
Proof.
  intros a b c.
  assert (G : forall x y p q,
             __gt__ (mkPartialDate (Some x) (Some p))
               (VPartialDate (mkPartialDate (Some y) (Some q)))
             = Return (PyBool true)
             <-> (date_geb x y = true /\ q <= p)
                 /\ mkPartialDate (Some x) (Some p)
                    <> mkPartialDate (Some y) (Some q)).
  { intros x y p q. unfold __gt__. cbv beta iota.
    unfold __ge__, __eq__, date_, precision.
    cbn [_date _precision opt_geb opt_eqb bind]. rewrite Z.geb_leb.
    destruct (date_geb x y); simpl.
    - destruct (Z.leb_spec q p); simpl.
      + destruct (date_eqb x y && (p =? q)) eqn:E; simpl.
        * split; [discriminate|]. intros [_ N]. exfalso. apply N.
          apply andb_true_iff in E. destruct E as [E1 E2].
          apply date_eqb_eq in E1. apply Z.eqb_eq in E2. congruence.
        * split; [|reflexivity]. intros _.
          split; [split; [reflexivity|lia]|].
          intros H'. injection H' as -> ->.
          rewrite date_eqb_refl, Z.eqb_refl in E. discriminate.
      + split; [discriminate|]. intros [[_ H'] _]. lia.
    - split; [discriminate|]. intros [[H' _] _]. discriminate. }
  assert (F : forall x y p q,
             __gt__ (mkPartialDate (Some x) (Some p))
               (VPartialDate (mkPartialDate (Some y) (Some q)))
             <> Return (PyBool true) ->
             __gt__ (mkPartialDate (Some x) (Some p))
               (VPartialDate (mkPartialDate (Some y) (Some q)))
             = Return (PyBool false)).
  { intros x y p q. unfold __gt__. cbv beta iota.
    unfold __ge__, __eq__, date_, precision.
    cbn [_date _precision opt_geb opt_eqb bind].
    destruct (date_geb x y); simpl; [|reflexivity].
    destruct (Z.geb p q); simpl; [|reflexivity].
    destruct (date_eqb x y && (p =? q)); simpl; [reflexivity|].
    intros H. now contradiction H. }
  subst a b c. split; [|split; [|split]].
  - rewrite G, ge_true. reflexivity.
  - apply F. rewrite G. intros [_ H]. now apply H.
  - rewrite G. intros [[D P] N]. apply F. rewrite G.
    intros [[D' P'] _]. apply N.
    rewrite (date_geb_antisym da db D D'). f_equal. f_equal. lia.
  - rewrite !G. intros [[D1 P1] N1] [[D2 P2] N2].
    split; [split; [exact (date_geb_trans da db dc D1 D2)|lia]|].
    intros E. injection E as -> ->. apply N1.
    rewrite (date_geb_antisym dc db D1 D2). f_equal. f_equal. lia.
Qed.

Lemma gt_strict_order_witness :
  __gt__ (mkPartialDate (Some (mkdate 2021 3 1)) (Some DAY))
    (VPartialDate (mkPartialDate (Some (mkdate 2020 1 1)) (Some YEAR)))
  = Return (PyBool true)
  /\ __gt__ (mkPartialDate (Some (mkdate 2020 5 1)) (Some MONTH))
       (VPartialDate (mkPartialDate (Some (mkdate 2021 3 1)) (Some DAY)))
     = Return (PyBool false).
Proof.
  pose proof (gt_strict_order (mkdate 2021 3 1) (mkdate 2020 5 1)
                (mkdate 2020 1 1) DAY MONTH YEAR) as (_ & _ & A & B).
  split; [exact (B eq_refl eq_refl)|exact (A eq_refl)].
Defined.

(** ** The field: reading and writing *)

Lemma date_of_fields (d : date) (z : Z) :
  date_of (mkdatetime (year d) (month d) (day d) 0 0 z 0) = d.
Proof. now destruct d. Qed.

Lemma get_prep_value_object (self : PartialDateField) (d : date) (z : Z) :
  date_ok d = true -> 0 <= z <= 3 ->
  get_prep_value self (VPartialDate (mkPartialDate (Some d) (Some z)))
  = Return (Some (mkdatetime (year d) (month d) (day d) 0 0 z 0)).
Proof.
  intros Hd Hz. unfold get_prep_value. simpl.
  unfold datetime_new. unfold date_ok in Hd. rewrite Hd.
  assert (T : check_time_fields 0 0 z 0 = true).
  { unfold check_time_fields.
    repeat (apply andb_true_iff; split); apply Z.leb_le; lia. }
  rewrite T. reflexivity.
Qed.

(** X12: what [from_db_value] reads: nothing from a null; from a stored
    date-time, the object with its date part and with its seconds as the
    precision when they are 0, 1, 2 or 3, and DAY for any other seconds;
    the hour, the minute and the microsecond are not read. *)
Theorem from_db_value_reads (self : PartialDateField) (t : datetime) :
  date_ok (date_of t) = true ->
  from_db_value self None = Return None
  /\ from_db_value self (Some t)
     = Return (Some (mkPartialDate (Some (date_of t))
                       (Some (if (0 <=? second t) && (second t <=? 3)
                              then second t else DAY)))).
Proof.
  intros Hd. split; [reflexivity|].
  unfold from_db_value.
  destruct (init_date (date_of t) (VInt (second t)) Hd) as (z & -> & _ & ->).
  simpl bind. do 4 f_equal. unfold in_tags, YEAR, MONTH, DAY, CIRCA.
  destruct ((0 <=? second t) && (second t <=? 3)) eqn:E.
  - prop_of_bool.
    assert (C : second t = 0 \/ second t = 1 \/ second t = 2 \/ second t = 3)
      by lia.
    destruct C as [->| [->| [->| ->]]]; reflexivity.
  - destruct ((second t =? 0) || (second t =? 1) || (second t =? 2)
              || (second t =? 3)) eqn:F; [|reflexivity].
    exfalso. repeat (apply orb_true_iff in F; destruct F as [F|F]);
      apply Z.eqb_eq in F; rewrite F in E; discriminate E.
Qed.

Lemma from_db_value_reads_witness :
  from_db_value {| name := str "born" |} None = Return None
  /\ from_db_value {| name := str "born" |}
       (Some (mkdatetime 1999 2 1 13 45 59 7))
     = Return (Some (mkPartialDate (Some (mkdate 1999 2 1)) (Some DAY))).
Proof.
  apply (from_db_value_reads {| name := str "born" |}
           (mkdatetime 1999 2 1 13 45 59 7)).
  reflexivity.
Defined.

(** X13: an object with a valid date and one of the four precisions is
    written by [get_prep_value] to a date-time from which
    [from_db_value] reads the same object back. *)
Theorem stored_object_read_back (self : PartialDateField) (p : PartialDate) :
  invariant p = true ->
  exists t,
    get_prep_value self (VPartialDate p) = Return (Some t)
    /\ from_db_value self (Some t) = Return (Some p).
Proof.
  intros H. destruct (invariant_fields p H) as (d & z & -> & Hd & Hz).
  eexists. split; [exact (get_prep_value_object self d z Hd Hz)|].
  unfold from_db_value. rewrite date_of_fields. cbn [second].
  destruct (init_date d (VInt z) Hd) as (z' & -> & _ & ->).
  rewrite (in_tags_tag z Hz). reflexivity.
Qed.

Lemma stored_object_read_back_witness :
  exists t,
    get_prep_value {| name := str "born" |}
      (VPartialDate (mkPartialDate (Some (mkdate 1850 1 1)) (Some CIRCA)))
    = Return (Some t)
    /\ from_db_value {| name := str "born" |} (Some t)
       = Return (Some (mkPartialDate (Some (mkdate 1850 1 1)) (Some CIRCA))).
Proof.
  apply (stored_object_read_back {| name := str "born" |}
           (mkPartialDate (Some (mkdate 1850 1 1)) (Some CIRCA))).
  reflexivity.
Defined.



(** X15: on a text, [get_prep_value] writes the parsed date with the
    parsed precision as the seconds, at midnight; on a text other than
    the empty one that [parse_date] refuses, the exception of
    [parse_date] reaches the caller as it is. *)
Theorem get_prep_value_text (self : PartialDateField) (s : text) :
  (forall d z, parse_date s = Return (d, z) ->
               get_prep_value self (VStr s)
               = Return (Some (mkdatetime (year d) (month d) (day d)
                                 0 0 z 0)))
  /\ (forall e, s <> [] -> parse_date s = Raise e ->
                get_prep_value self (VStr s) = Raise e).
Proof.
  split.
  - intros d z P. destruct (parse_date_returns s d z P) as [Hd Hz].
    assert (I : __init__ (VStr s) (VInt DAY)
                = Return (mkPartialDate (Some d) (Some z)))
      by (apply init_str; eauto).
    assert (N : is_none_or_empty (VStr s) = false)
      by (destruct s; [discriminate P|reflexivity]).
    pose proof (get_prep_value_object self d z Hd Hz) as G.
    unfold get_prep_value in *. rewrite N. unfold to_python. rewrite I.
    exact G.
  - intros e Hs P.
    assert (N : is_none_or_empty (VStr s) = false)
      by (destruct s; [contradiction|reflexivity]).
    unfold get_prep_value. rewrite N.
    unfold to_python, __init__. rewrite P. reflexivity.
Qed.

Lemma get_prep_value_text_witness :
  get_prep_value {| name := str "born" |} (VStr (str "c 1850"))
  = Return (Some (mkdatetime 1850 1 1 0 0 3 0))
  /\ get_prep_value {| name := str "born" |} (VStr (str "c. 0"))
     = Raise ValueError.
Proof.
  split.
  - apply (proj1 (get_prep_value_text {| name := str "born" |}
                    (str "c 1850")) (mkdate 1850 1 1) CIRCA).
    reflexivity.
  - apply (proj2 (get_prep_value_text {| name := str "born" |}
                    (str "c. 0")) ValueError); [discriminate|reflexivity].
Defined.

(** X16: [to_python] returns exactly on [None], which it returns, on a
    PartialDate, which it returns as it is, and on a text that
    [parse_date] accepts, for which it returns the object of the parsed
    date and precision; it returns on no number and on no date. *)
Theorem to_python_returns_iff (self : PartialDateField) (v : value)
    (r : option PartialDate) :
  to_python self v = Return r <->
  (v = VNone /\ r = None)
  \/ (exists p, v = VPartialDate p /\ r = Some p)
  \/ (exists s d z,
         v = VStr s /\ parse_date s = Return (d, z)
         /\ r = Some (mkPartialDate (Some d) (Some z))).
Proof.
  split.
  - destruct v; simpl; intros H; try discriminate H.
    + injection H as <-. auto.
    + right. right.
      destruct (__init__ (VStr s) (VInt DAY)) as [p|] eqn:E; [|discriminate].
      injection H as <-. apply init_str in E.
      destruct E as (d & z & P & ->). exists s, d, z. auto.
    + injection H as <-. right. left. eauto.
  - intros [[-> ->] | [(p & -> & ->) | (s & d & z & -> & P & ->)]];
      try reflexivity.
    assert (I : __init__ (VStr s) (VInt DAY)
                = Return (mkPartialDate (Some d) (Some z)))
      by (apply init_str; eauto).
    simpl. now rewrite I.
Qed.

(** ** The string representation, again *)

(** X17: an object whose date is valid and normalised for its precision
    (the day is 1 under MONTH, the month and the day are 1 under YEAR
    and CIRCA) is built again from its string representation, whatever
    precision is passed along. *)
Theorem repr_rebuilds_normalised
    (zero_pad : bool) (d : date) (z : Z) (v : value) :
  date_ok d = true -> 0 <= z <= 3 -> normalised d z ->
  exists t,
    __repr__ zero_pad (mkPartialDate (Some d) (Some z)) = Some t
    /\ __init__ (VStr t) v = Return (mkPartialDate (Some d) (Some z)).
Proof. exact (repr_round_trip zero_pad d z v). Qed.

Lemma repr_rebuilds_normalised_witness :
  exists t,
    __repr__ false (mkPartialDate (Some (mkdate 999 1 1)) (Some CIRCA))
    = Some t
    /\ __init__ (VStr t) VNone
       = Return (mkPartialDate (Some (mkdate 999 1 1)) (Some CIRCA)).
Proof.
  apply (repr_rebuilds_normalised false (mkdate 999 1 1) CIRCA VNone).
  - reflexivity.
  - unfold CIRCA. lia.
  - split; [discriminate|]. intros _. split; reflexivity.
Defined.

(** X18: an object built from a text is built again from its own string
    representation: parsing, formatting and parsing again gives the
    object of the first parse. *)
Theorem repr_rebuilds_parsed
    (zero_pad : bool) (s : text) (v w : value) (p : PartialDate) :
  __init__ (VStr s) v = Return p ->
  exists t, __repr__ zero_pad p = Some t /\ __init__ (VStr t) w = Return p.
Proof.
  intros H.
  destruct (text_objects_normalised s v p H) as (d & z & -> & Hd & Hz & Hn).
  exact (repr_round_trip zero_pad d z w Hd Hz Hn).
Qed.

Lemma repr_rebuilds_parsed_witness :
  exists t,
    __repr__ true (mkPartialDate (Some (mkdate 1850 1 1)) (Some CIRCA))
    = Some t
    /\ __init__ (VStr t) VNone
       = Return (mkPartialDate (Some (mkdate 1850 1 1)) (Some CIRCA)).
Proof.
  apply (repr_rebuilds_parsed true (str "Circa 1850") (VInt DAY) VNone).
  reflexivity.
Defined.

(** X19: two objects whose dates are valid and normalised for their
    precisions and that have the same string representation are the
    same object. *)
Theorem repr_injective
    (zero_pad : bool) (d d' : date) (z z' : Z) :
  date_ok d = true -> 0 <= z <= 3 -> normalised d z ->
  date_ok d' = true -> 0 <= z' <= 3 -> normalised d' z' ->
  __repr__ zero_pad (mkPartialDate (Some d) (Some z))
  = __repr__ zero_pad (mkPartialDate (Some d') (Some z')) ->
  d = d' /\ z = z'.
Proof.
  intros Hd Hz Hn Hd' Hz' Hn' E.
  destruct (repr_round_trip zero_pad d z VNone Hd Hz Hn) as (t & R & I).
  destruct (repr_round_trip zero_pad d' z' VNone Hd' Hz' Hn')
    as (t' & R' & I').
  rewrite R, R' in E. injection E as <-.
  rewrite I in I'. injection I' as <- <-. auto.
Qed.

Lemma repr_injective_witness :
  mkdate 1999 2 1 = mkdate 1999 2 1 /\ MONTH = MONTH.
Proof.
  assert (N : normalised (mkdate 1999 2 1) MONTH).
  { split; [reflexivity|]. intros [H|H]; discriminate H. }
  apply (repr_injective true (mkdate 1999 2 1) (mkdate 1999 2 1) MONTH MONTH);
    try reflexivity; try exact N; unfold MONTH; lia.
Defined.
